(** * CHIP-8 front end: the driver of [main.go]

    A shallow embedding of [main.go]: the loader with its deferred
    recovery ([Load]), the start-up sequence of [main], and the loop
    that serves the two tickers.  The [chip8] package, the SDL
    bindings and the other files of package [main] are collaborators:
    the driver only calls them, so they appear here as interfaces
    ([chip8.Package], [Frontend], [Host]), and every call that leaves
    the driver is recorded in a log. *)

From Stdlib Require Import ZArith List String Bool Lia.
Import ListNotations.
Local Open Scope string_scope.
Local Open Scope list_scope.
Local Open Scope Z_scope.

(** ** Go values used by the driver *)

Definition byte := Byte.byte.

(** The value handed to [panic] and given back by [recover].  Only its
    printed form is observed ([fmt.Println(r)]).  The [chip8] package
    and the Go run time panic with errors and strings, never with a nil
    value, so [recover()] is [nil] exactly when no panic is in flight:
    that is the test [r != nil] of [Load]. *)
Definition PanicValue := string.

(** The run-time panic of a method call through a nil pointer. *)
Definition nil_dereference : PanicValue :=
  "invalid memory address or nil pointer dereference".

(** How a Go call ends: it returns, or it panics. *)
Inductive Completion (A : Type) : Type :=
| Returns (a : A)
| Panics (r : PanicValue).
Arguments Returns {A} a.
Arguments Panics {A} r.

(** Package [time]: a [Duration] is an [int64] count of nanoseconds. *)
Module time.
Definition Duration := Z.

Definition int64 (z : Z) : Z := (z + 2 ^ 63) mod 2 ^ 64 - 2 ^ 63.

Definition Nanosecond : Duration := 1.
Definition Microsecond : Duration := 1000 * Nanosecond.
Definition Millisecond : Duration := 1000 * Microsecond.
Definition Second : Duration := 1000 * Millisecond.

(** [a * b] and [a / b] on [Duration]: 64-bit wrap-around, and a
    quotient that truncates toward zero. *)
Definition mul (a b : Duration) : Duration := int64 (a * b).
Definition div (a b : Duration) : Duration := int64 (Z.quot a b).
End time.

(** Go's [int] (64 bits on the supported platforms). *)
Definition int_add (x y : Z) : Z := time.int64 (x + y).

(** ** The [chip8] package, as the driver sees it *)

Module chip8.

(** The dynamic value of the [error] that [Process] returns, as the
    type switch of [main] tells it apart: [nil], a [chip8.Breakpoint]
    (carrying what its [Error()] method yields), or a value of any
    other error type. *)
Inductive error : Type :=
| nil
| Breakpoint (msg : string)
| other (msg : string).

Definition is_Breakpoint (e : error) : bool :=
  match e with Breakpoint _ => true | _ => false end.

(** [chip8.Assembly], the fields [Load] reads. *)
Record Assembly (Address : Type) : Type := {
  ROM : list byte;
  Breakpoints : list Address
}.
Arguments ROM {Address} _.
Arguments Breakpoints {Address} _.

(** What [main.go] calls in the package.  The calls made inside
    [Load] may panic (that is what its deferred function is for);
    [Process] is called with no recovery around it and returns the
    advanced machine with its [error].  [Tick] stands for what the
    outside world contributes to one [Process] call (wall clock,
    keys held, random numbers). *)
Class Package : Type := {
  CHIP_8 : Type;
  Address : Type;
  Tick : Type;
  Pong : list byte;
  Dummy : list byte;
  LoadROM : list byte -> Completion CHIP_8;
  LoadFile : string -> Completion CHIP_8;
  Assemble : string -> Completion (Assembly Address);
  AddBreakpoint : CHIP_8 -> Address -> Completion CHIP_8;
  Process : Tick -> CHIP_8 -> bool -> CHIP_8 * error
}.

End chip8.

(** ** Observable actions

    Every call that leaves the driver is recorded, in order, in a
    ghost log; standard output is the [EvPrintln] entries of it. *)
Inductive Event {P : chip8.Package} : Type :=
| EvPrintln (line : string)
| EvLoadROM (rom : list byte)
| EvLoadFile (file : string)
| EvAssemble (file : string)
| EvAddBreakpoint (a : chip8.Address)
| EvProcess (paused : bool)
| EvProcessEvents (continue : bool)
| EvNewTicker (d : time.Duration)
| EvCall (name : string) (args : list Z).

Definition is_AddBreakpoint {P : chip8.Package} (e : Event) : bool :=
  match e with EvAddBreakpoint _ => true | _ => false end.

Definition is_Process {P : chip8.Package} (e : Event) : bool :=
  match e with EvProcess _ => true | _ => false end.

Definition is_ProcessEvents {P : chip8.Package} (e : Event) : bool :=
  match e with EvProcessEvents _ => true | _ => false end.

(** ** Package-level variables of [main] *)

Record Globals {P : chip8.Package} : Type := {
  File : string;               (* the file to load as a ROM or assemble *)
  Assemble : bool;             (* true if File is assembly code *)
  Break : bool;                (* true if the ROM should load paused *)
  VM : option chip8.CHIP_8;    (* *chip8.CHIP_8; None is the nil pointer *)
  Paused : bool;               (* the run state *)
  log : list Event             (* ghost: what has been done so far *)
}.

Section Globals_update.
Context {P : chip8.Package}.

Definition set_File (f : string) (g : Globals) : Globals :=
  {| File := f; Assemble := Assemble g; Break := Break g;
     VM := VM g; Paused := Paused g; log := log g |}.

Definition set_Assemble (b : bool) (g : Globals) : Globals :=
  {| File := File g; Assemble := b; Break := Break g;
     VM := VM g; Paused := Paused g; log := log g |}.

Definition set_Break (b : bool) (g : Globals) : Globals :=
  {| File := File g; Assemble := Assemble g; Break := b;
     VM := VM g; Paused := Paused g; log := log g |}.

Definition set_VM (m : chip8.CHIP_8) (g : Globals) : Globals :=
  {| File := File g; Assemble := Assemble g; Break := Break g;
     VM := Some m; Paused := Paused g; log := log g |}.

Definition set_Paused (b : bool) (g : Globals) : Globals :=
  {| File := File g; Assemble := Assemble g; Break := Break g;
     VM := VM g; Paused := b; log := log g |}.

Definition emit (e : Event) (g : Globals) : Globals :=
  {| File := File g; Assemble := Assemble g; Break := Break g;
     VM := VM g; Paused := Paused g; log := log g ++ [e] |}.

(** The zero values the variables hold when [main] starts. *)
Definition zero : Globals :=
  {| File := ""; Assemble := false; Break := false;
     VM := None; Paused := false; log := [] |}.
End Globals_update.

(** ** Statements of Go that may panic

    A computation reads and writes the globals and either returns or
    panics; assignments made before a panic stay made. *)
Definition Go {P : chip8.Package} (A : Type) : Type :=
  Globals -> Completion A * Globals.

Section Go_monad.
Context {P : chip8.Package}.

Definition ret {A} (a : A) : Go A := fun g => (Returns a, g).

Definition panic {A} (r : PanicValue) : Go A := fun g => (Panics r, g).

Definition bind {A B} (c : Go A) (k : A -> Go B) : Go B :=
  fun g =>
    match c g with
    | (Returns a, g') => k a g'
    | (Panics r, g') => (Panics r, g')
    end.

(** A call out of the driver: it is logged, then it returns or panics. *)
Definition call {A} (e : Event) (c : Completion A) : Go A :=
  fun g => (c, emit e g).

Definition modify (f : Globals -> Globals) : Go unit :=
  fun g => (Returns tt, f g).

Definition Println (line : string) : Go unit := modify (emit (EvPrintln line)).

(** [defer func() { ... recover() ... }()]: the body runs, then the
    deferred function runs with what [recover()] gives it: [Some r]
    when the body panicked with [r], [None] when it returned.  The
    deferred function of [Load] calls [recover] on every path, so the
    panic of the body is always stopped; a panic raised by the
    deferred function itself goes on to the caller. *)
Definition defer_recover (deferred : option PanicValue -> Go unit)
                         (body : Go unit) : Go unit :=
  fun g =>
    match body g with
    | (Returns _, g') => deferred None g'
    | (Panics r, g') => deferred (Some r) g'
    end.
End Go_monad.

Declare Scope go_scope.
Delimit Scope go_scope with go.
Notation "x <- c ;; k" := (bind c (fun x => k))
  (at level 61, c at next level, right associativity) : go_scope.
Notation "c ;; k" := (bind c (fun _ => k))
  (at level 61, right associativity) : go_scope.

(** ** [Load] *)

Section Load.
Context {P : chip8.Package}.
Local Open Scope go_scope.

(** [for _, b := range asm.Breakpoints { VM.AddBreakpoint(b) }]:
    the method works on the machine [VM] points to. *)
Fixpoint add_breakpoints (bs : list chip8.Address) : Go unit :=
  match bs with
  | [] => ret tt
  | b :: rest =>
      fun g =>
        match VM g with
        | None => (Panics nil_dereference, g)
        | Some m =>
            (m' <- call (EvAddBreakpoint b) (chip8.AddBreakpoint m b) ;;
             modify (set_VM m') ;;
             add_breakpoints rest) g
        end
  end.

(** The statements of [Load] after the [defer]. *)
Definition Load_body : Go unit :=
  fun g =>
    (if String.eqb (File g) ""
     then
       m <- call (EvLoadROM chip8.Pong) (chip8.LoadROM chip8.Pong) ;;
       modify (set_VM m)
     else if Assemble g
     then
       asm <- call (EvAssemble (File g)) (chip8.Assemble (File g)) ;;
       (* load the assembled program *)
       m <- call (EvLoadROM (chip8.ROM asm)) (chip8.LoadROM (chip8.ROM asm)) ;;
       modify (set_VM m) ;;
       (* add all the breakpoints from the assembly *)
       add_breakpoints (chip8.Breakpoints asm)
     else
       m <- call (EvLoadFile (File g)) (chip8.LoadFile (File g)) ;;
       modify (set_VM m)) g.

(** The deferred function of [Load]. *)
Definition Load_deferred (r : option PanicValue) : Go unit :=
  match r with
  | Some r =>
      Println r ;;
      (* load the empty, dummy rom *)
      m <- call (EvLoadROM chip8.Dummy) (chip8.LoadROM chip8.Dummy) ;;
      modify (set_VM m)
  | None => ret tt
  end.

Definition Load : Go unit := defer_recover Load_deferred Load_body.
End Load.


(** ** [Refresh] and [Frame]

    The renderer and the drawing helpers kept in the other files of the
    package ([RefreshScreen], [CopyScreen], [DebugLog], [DebugAssembly],
    [DebugRegisters]) only draw: each call is an entry of the log. *)

Section Refresh.
Context {P : chip8.Package}.
Local Open Scope go_scope.

Definition draw (name : string) (args : list Z) : Go unit :=
  modify (emit (EvCall name args)).

Definition Frame (x y w h : Z) : Go unit :=
  draw "Renderer.SetDrawColor" [0; 0; 0; 255] ;;
  draw "Renderer.DrawLine" [x; y; int_add x w; y] ;;
  draw "Renderer.DrawLine" [x; y; x; int_add y h] ;;
  (* highlight *)
  draw "Renderer.SetDrawColor" [95; 112; 120; 255] ;;
  draw "Renderer.DrawLine" [int_add x w; y; int_add x w; int_add y h] ;;
  draw "Renderer.DrawLine" [x; int_add y h; int_add x w; int_add y h].

Definition Refresh : Go unit :=
  draw "Renderer.SetDrawColor" [32; 42; 53; 255] ;;
  draw "Renderer.Clear" [] ;;
  (* frame various portions of the app *)
  Frame 8 8 386 194 ;;
  Frame 8 208 386 164 ;;
  Frame 402 8 204 194 ;;
  Frame 402 208 204 164 ;;
  (* update the video screen and copy it *)
  draw "RefreshScreen" [] ;;
  draw "CopyScreen" [10; 10; 384; 192] ;;
  (* debug assembly and virtual registers *)
  draw "DebugLog" [12; 212] ;;
  draw "DebugAssembly" [406; 11] ;;
  draw "DebugRegisters" [406; 212] ;;
  (* show the new frame *)
  draw "Renderer.Present" [].
End Refresh.

(** ** [main] *)

(** What [flag.Parse] finds on the command line: the two boolean
    flags and the arguments that follow them. *)
Record CommandLine : Type := {
  opt_a : bool;                (* -a: assemble file before loading *)
  opt_b : bool;                (* -b: start ROM paused *)
  args : list string
}.

(** [flag.Arg(i)]: the i-th remaining argument, or the empty string. *)
Definition flag_Arg (cl : CommandLine) (i : nat) : string := nth i (args cl) "".

(** What SDL answers at start-up: the [err] of [sdl.Init], the [err] of
    [sdl.CreateWindowAndRenderer] and that of [sdl.LoadBMP]
    ([None] is [nil]). *)
Record Host : Type := {
  sdl_Init : option string;
  sdl_CreateWindowAndRenderer : option string;
  sdl_LoadBMP : option string
}.

(** The channel on which the [select] of the loop receives. *)
Inductive Ticker : Type := video | clock.

Inductive Run {P : chip8.Package} : Type :=
| Exited (g : Globals)                      (* the [for] condition was false *)
| Panicked (r : PanicValue) (g : Globals)   (* a panic nothing recovers *)
| Waiting (g : Globals).                    (* still looping: nothing more has happened yet *)

Definition final {P : chip8.Package} (r : Run) : Globals :=
  match r with Exited g | Panicked _ g | Waiting g => g end.

(** The rest of package [main] and the Go library, as [main] and its
    loop use them.  [ProcessEvents] lives in another file of the
    package: it drains the pending SDL events ([Events]); key presses
    and debugger keys act on the machine [VM] points to and on
    [Paused]; its result is false when the window was closed or the
    user quit.  [filepath_Base] is [filepath.Base]. *)
Class Frontend {P : chip8.Package} : Type := {
  Events : Type;
  ProcessEvents : Events -> chip8.CHIP_8 -> bool -> chip8.CHIP_8 * bool * bool;
  filepath_Base : string -> string
}.

Section Main.
Context {P : chip8.Package} {F : Frontend}.
Local Open Scope go_scope.

(** What the outside world supplies to one turn of the loop: the
    pending events, the channel that delivers first, and the
    contribution to [Process]. *)
Record Iteration : Type := {
  pending : Events;
  fired : Ticker;
  tick : chip8.Tick
}.

Definition clock_period : time.Duration := time.mul time.Millisecond 2.
Definition video_period : time.Duration := time.div time.Second 60.

(** [main] up to the [for] statement. *)
Definition main_startup (cl : CommandLine) (h : Host) : Go unit :=
  (* seed the random number generator *)
  draw "rand.Seed" [] ;;
  (* parse the command line *)
  modify (set_Assemble (opt_a cl)) ;;
  modify (set_Break (opt_b cl)) ;;
  (* get the file name of the ROM to load *)
  modify (set_File (flag_Arg cl 0)) ;;
  (* initialize SDL or panic *)
  draw "sdl.Init" [] ;;
  match sdl_Init h with Some err => panic err | None => ret tt end ;;
  (* create the main window and renderer or panic *)
  draw "sdl.CreateWindowAndRenderer" [614; 380] ;;
  match sdl_CreateWindowAndRenderer h with Some err => panic err | None => ret tt end ;;
  (* set the icon *)
  draw "sdl.LoadBMP" [] ;;
  match sdl_LoadBMP h with
  | None =>
      draw "sdl.MapRGB" [255; 0; 255] ;;
      draw "icon.SetColorKey" [1] ;;
      draw "Window.SetIcon" []
  | Some _ => ret tt
  end ;;
  (* set the title *)
  draw "Window.SetTitle" [] ;;
  (* initialize subsystems *)
  draw "InitDebug" [] ;;
  (* show copyright information *)
  Println "CHIP-8, Copyright 2017 by Jeffrey Massung" ;;
  Println "All rights reserved" ;;
  Println "" ;;
  (* load either the file specified or default to PONG *)
  (fun g =>
     (if negb (String.eqb (File g) "")
      then Println ("Loading " ++ filepath_Base (File g))%string
      else Println "Loading PONG") g) ;;
  (* create a new CHIP-8 virtual machine, load the ROM.. *)
  Load ;;
  draw "InitScreen" [] ;;
  draw "InitAudio" [] ;;
  draw "InitFont" [] ;;
  (* initially break into debugger? *)
  modify (fun g => set_Paused (Break g) g) ;;
  (* set processor speed and refresh rate *)
  modify (emit (EvNewTicker clock_period)) ;;
  modify (emit (EvNewTicker video_period)) ;;
  (* notify that the main loop has started *)
  Println (String (Ascii.ascii_of_nat 10) "Starting program; press F1 for help").

(** The condition of the [for]: one call of [ProcessEvents], which
    works on the machine [VM] points to and on [Paused].  [Load] never
    returns with [VM] nil ([Load_returns_VM]); were it nil, the call
    is taken to fail on the nil pointer, as the [Process] call does. *)
Definition poll (ev : Events) : Go bool :=
  fun g =>
    match VM g with
    | None => (Panics nil_dereference, g)
    | Some m =>
        let '(m', paused', continue) := ProcessEvents ev m (Paused g) in
        (Returns continue,
         emit (EvProcessEvents continue) (set_Paused paused' (set_VM m' g)))
    end.

(** [case <-clock.C:] *)
Definition on_clock (t : chip8.Tick) : Go unit :=
  fun g =>
    match VM g with
    | None => (Panics nil_dereference, g)
    | Some m =>
        let (m', res) := chip8.Process t m (Paused g) in
        let g1 := set_VM m' (emit (EvProcess (Paused g)) g) in
        match res with
        | chip8.Breakpoint msg =>
            (Println msg ;;
             (* break the emulation *)
             modify (set_Paused true)) g1
        | _ => (Returns tt, g1)
        end
    end.

(** The [select] statement: the body of the loop. *)
Definition select (i : Iteration) : Go unit :=
  match fired i with
  | video => Refresh
  | clock => on_clock (tick i)
  end.

(** [for ProcessEvents() { select { ... } }], run against the turns the
    outside world has supplied so far. *)
Fixpoint loop (ins : list Iteration) (g : Globals) : Run :=
  match ins with
  | [] => Waiting g
  | i :: rest =>
      match poll (pending i) g with
      | (Panics r, g1) => Panicked r g1
      | (Returns false, g1) => Exited g1
      | (Returns true, g1) =>
          match select i g1 with
          | (Panics r, g2) => Panicked r g2
          | (Returns _, g2) => loop rest g2
          end
      end
  end.

Definition main (cl : CommandLine) (h : Host) (ins : list Iteration) : Run :=
  match main_startup cl h zero with
  | (Panics r, g) => Panicked r g
  | (Returns _, g) => loop ins g
  end.

End Main.

(** ** A small instance of the collaborators

    Used to run the driver on concrete inputs. *)

Module Reference.

(** Modelled from the spec: the [chip8] package is not part of
    [main.go]; this machine keeps the program image, a program counter
    and the breakpoint addresses in registration order, which is the
    contract of section 6 ([loadImage], [addBreakpoint], [advance]). *)
Record machine : Type := {
  memory : list byte;
  pc : Z;
  breakpoints : list Z
}.

Definition LoadROM (program : list byte) : Completion machine :=
  if 0xE00 <? Z.of_nat (List.length program)
  then Panics "Program too large to fit in memory!"
  else Returns {| memory := program; pc := 0x200; breakpoints := [] |}.

Definition Pong : list byte := [Byte.x6a; Byte.x02; Byte.x12; Byte.x00].
Definition Dummy : list byte := [Byte.x12; Byte.x00].

(** One file holds a binary image, one holds a good assembly text;
    every other path cannot be opened. *)
Definition LoadFile (file : string) : Completion machine :=
  if String.eqb file "game.rom"
  then LoadROM [Byte.x00; Byte.xe0; Byte.x12; Byte.x02]
  else Panics "open: no such file or directory".

Definition Assemble (file : string) : Completion (chip8.Assembly Z) :=
  if String.eqb file "prog.c8"
  then Returns {| chip8.ROM := [Byte.x00; Byte.xe0; Byte.x00; Byte.xe0; Byte.x12; Byte.x00];
                  chip8.Breakpoints := [0x202; 0x204] |}
  else Panics "syntax error".

Definition AddBreakpoint (m : machine) (a : Z) : Completion machine :=
  Returns {| memory := memory m; pc := pc m; breakpoints := breakpoints m ++ [a] |}.

(** While paused nothing moves; otherwise one instruction is stepped
    over and a breakpoint at the new address is reported. *)
Definition Process (t : unit) (m : machine) (paused : bool) : machine * chip8.error :=
  if paused then (m, chip8.nil)
  else
    let m' := {| memory := memory m; pc := pc m + 2; breakpoints := breakpoints m |} in
    if existsb (Z.eqb (pc m')) (breakpoints m')
    then (m', chip8.Breakpoint "hit breakpoint")
    else (m', chip8.nil).

#[export] Instance package : chip8.Package := {|
  chip8.CHIP_8 := machine;
  chip8.Address := Z;
  chip8.Tick := unit;
  chip8.Pong := Pong;
  chip8.Dummy := Dummy;
  chip8.LoadROM := LoadROM;
  chip8.LoadFile := LoadFile;
  chip8.Assemble := Assemble;
  chip8.AddBreakpoint := AddBreakpoint;
  chip8.Process := Process
|}.

(** A package that misbehaves: its dummy ROM is too large to load,
    and its machine, when it is not paused, reports an error that is
    not a breakpoint at every step. *)
Definition Process_faulty (t : unit) (m : machine) (paused : bool)
  : machine * chip8.error :=
  if paused then (m, chip8.nil) else (m, chip8.other "invalid instruction").

Definition faulty : chip8.Package := {|
  chip8.CHIP_8 := machine;
  chip8.Address := Z;
  chip8.Tick := unit;
  chip8.Pong := Pong;
  chip8.Dummy := repeat Byte.x00 3585;
  chip8.LoadROM := LoadROM;
  chip8.LoadFile := LoadFile;
  chip8.Assemble := Assemble;
  chip8.AddBreakpoint := AddBreakpoint;
  chip8.Process := Process_faulty
|}.

(** Modelled from the spec: [ProcessEvents] is not part of [main.go];
    the pending events either ask to quit ([pollQuit]), flip the run
    state (the debugger's pause and resume key), or are absent. *)
Inductive events : Type := Nothing | Quit | TogglePause.

Definition ProcessEvents (ev : events) (m : machine) (paused : bool)
  : machine * bool * bool :=
  match ev with
  | Nothing => (m, paused, true)
  | Quit => (m, paused, false)
  | TogglePause => (m, negb paused, true)
  end.

Definition Base (path : string) : string := path.

#[export] Instance frontend : Frontend :=
  @Build_Frontend package events ProcessEvents Base.

Definition faulty_frontend : @Frontend faulty :=
  @Build_Frontend faulty events ProcessEvents Base.

Definition turn (ev : events) (t : Ticker) : Iteration :=
  {| pending := ev; fired := t; tick := tt |}.

Definition sdl_up : Host :=
  {| sdl_Init := None; sdl_CreateWindowAndRenderer := None; sdl_LoadBMP := None |}.

Definition run (cl : CommandLine) (ins : list Iteration) : Run :=
  main cl sdl_up ins.

(** Load requests and loop states to run the driver on. *)
Definition request (file : string) (assemble : bool) : Globals :=
  set_Assemble assemble (set_File file zero).

Definition dummy : machine :=
  {| memory := Dummy; pc := 0x200; breakpoints := [] |}.

Definition armed : machine :=
  {| memory := [Byte.x00; Byte.xe0; Byte.x12; Byte.x00]; pc := 0x200;
     breakpoints := [0x202] |}.

Definition at_loop (m : machine) (paused : bool) : Globals :=
  set_Paused paused (set_VM m zero).

Definition paused_start : CommandLine :=
  {| opt_a := false; opt_b := true; args := ["game.rom"] |}.

Definition idle (t : Ticker) : Iteration := turn Nothing t.

(** A failing load request and a loop state for the faulty package. *)
Definition faulty_request : @Globals faulty :=
  @set_Assemble faulty true (@set_File faulty "bad.c8" (@zero faulty)).

Definition faulty_at_loop : @Globals faulty :=
  @set_VM faulty armed (@zero faulty).

Definition faulty_idle (t : Ticker) : @Iteration faulty faulty_frontend :=
  @Build_Iteration faulty faulty_frontend Nothing t tt.

Definition no_icon : Host :=
  {| sdl_Init := None; sdl_CreateWindowAndRenderer := None;
     sdl_LoadBMP := Some "data/chip_8.bmp: file not found" |}.

Definition no_sdl : Host :=
  {| sdl_Init := Some "no available video device";
     sdl_CreateWindowAndRenderer := None; sdl_LoadBMP := None |}.

(** [armed] one instruction further, on its breakpoint. *)
Definition stopped : machine :=
  {| memory := memory armed; pc := 0x202; breakpoints := breakpoints armed |}.

(** What [Assemble] gives for the good source, the machine built from
    its ROM, and that machine with the two breakpoints registered. *)
Definition assembled : chip8.Assembly Z :=
  {| chip8.ROM := [Byte.x00; Byte.xe0; Byte.x00; Byte.xe0; Byte.x12; Byte.x00];
     chip8.Breakpoints := [0x202; 0x204] |}.

Definition fresh : machine :=
  {| memory := chip8.ROM assembled; pc := 0x200; breakpoints := [] |}.

Definition watched : machine :=
  {| memory := chip8.ROM assembled; pc := 0x200; breakpoints := [0x202; 0x204] |}.

(** The machine in the file that holds a binary image. *)
Definition game : machine :=
  {| memory := [Byte.x00; Byte.xe0; Byte.x12; Byte.x02]; pc := 0x200;
     breakpoints := [] |}.

End Reference.

(** ** Vocabulary of the statements *)

Section Vocabulary.
Context {P : chip8.Package}.

(** The breakpoints of an assembly registered one after the other on a
    machine: what the [range] loop of [Load] computes when every call
    returns. *)
Fixpoint register (m : chip8.CHIP_8) (bs : list chip8.Address)
  : Completion chip8.CHIP_8 :=
  match bs with
  | [] => Returns m
  | b :: rest =>
      match chip8.AddBreakpoint m b with
      | Returns m' => register m' rest
      | Panics r => Panics r
      end
  end.

(** Entries of the log made by the loop: its condition and its
    [Process] calls. *)
Definition is_loop_event (e : Event) : bool :=
  is_Process e || is_ProcessEvents e.

(** [g'] comes after [g] with the command-line variables and the run
    state as they were, and with [l] added to the log. *)
Definition advanced_by (l : list Event) (g g' : Globals) : Prop :=
  File g' = File g /\ Assemble g' = Assemble g /\ Break g' = Break g /\
  Paused g' = Paused g /\ log g' = log g ++ l.

(** The steps a loader may take: nothing but [VM] and the log changes,
    and no entry of the loop is logged. *)
Definition loads (g g' : Globals) : Prop :=
  exists l, advanced_by l g g' /\ filter is_loop_event l = [].

(** A computation all of whose outcomes are related to its start. *)
Definition preserves (R : Globals -> Globals -> Prop) {A} (c : Go A) : Prop :=
  forall g r g', c g = (r, g') -> R g g'.

(** A duration of which [n] make up one second exactly. *)
Definition nth_of_a_second (n : Z) (d : time.Duration) : Prop :=
  n * d = time.Second.

(** What one call of [Refresh] adds to the log. *)
Definition Refresh_log : list Event := log (snd (Refresh zero)).

(** The machine a load request asks for, as a function of the file
    name and the assemble flag: the three branches of [Load] with the
    calls in the order [Load] makes them. *)
Definition produce (file : string) (assemble : bool) : Completion chip8.CHIP_8 :=
  if String.eqb file ""
  then chip8.LoadROM chip8.Pong
  else if assemble
  then
    match chip8.Assemble file with
    | Returns asm =>
        match chip8.LoadROM (chip8.ROM asm) with
        | Returns m => register m (chip8.Breakpoints asm)
        | Panics r => Panics r
        end
    | Panics r => Panics r
    end
  else chip8.LoadFile file.

(** The first call [Load] makes for a load request. *)
Definition first_call (file : string) (assemble : bool) : Event :=
  if String.eqb file "" then EvLoadROM chip8.Pong
  else if assemble then EvAssemble file
  else EvLoadFile file.

(** The line [main] prints before it calls [Load]. *)
Definition announcement (base : string -> string) (file : string) : string :=
  if String.eqb file "" then "Loading PONG" else ("Loading " ++ base file)%string.

(** Entries that read a file or register a breakpoint. *)
Definition is_source_event (e : Event) : bool :=
  match e with
  | EvLoadFile _ | EvAssemble _ | EvAddBreakpoint _ => true
  | _ => false
  end.

(** Entries made by the renderer and the drawing helpers. *)
Definition is_draw (e : Event) : bool :=
  match e with EvCall _ _ => true | _ => false end.

(** The channel an entry of the log serves: a [Process] call serves
    the clock, the [Renderer.Present] that ends [Refresh] serves the
    video channel. *)
Definition service (e : Event) : list Ticker :=
  match e with
  | EvProcess _ => [clock]
  | EvCall name _ => if String.eqb name "Renderer.Present" then [video] else []
  | _ => []
  end.

Definition services (l : list Event) : list Ticker := flat_map service l.

(** The segment a [Renderer.DrawLine] entry draws. *)
Definition line (e : Event) : list (Z * Z * Z * Z) :=
  match e with
  | EvCall name [x1; y1; x2; y2] =>
      if String.eqb name "Renderer.DrawLine" then [(x1, y1, x2, y2)] else []
  | _ => []
  end.

Definition lines (l : list Event) : list (Z * Z * Z * Z) := flat_map line l.

(** A segment with both ends inside a window of the given size. *)
Definition inside (width height : Z) (s : Z * Z * Z * Z) : Prop :=
  let '(x1, y1, x2, y2) := s in
  0 <= x1 < width /\ 0 <= x2 < width /\ 0 <= y1 < height /\ 0 <= y2 < height.

(** Two states that differ in the log at most. *)
Definition same_variables (g1 g2 : Globals) : Prop :=
  File g1 = File g2 /\ Assemble g1 = Assemble g2 /\ Break g1 = Break g2 /\
  VM g1 = VM g2 /\ Paused g1 = Paused g2.

(** A computation that does not look at the log: from two states that
    differ in the log at most it ends the same way, in states that
    differ in the log at most, having added the same entries. *)
Definition log_blind {A} (c : Go A) : Prop :=
  forall g1 g2, same_variables g1 g2 ->
    exists r l g1' g2',
      c g1 = (r, g1') /\ c g2 = (r, g2') /\ same_variables g1' g2' /\
      log g1' = log g1 ++ l /\ log g2' = log g2 ++ l.

(** The three calls that set the icon of the window. *)
Definition icon_calls : list Event :=
  [EvCall "sdl.MapRGB" [255; 0; 255]; EvCall "icon.SetColorKey" [1];
   EvCall "Window.SetIcon" []].

(** [a] directly followed by [b] in a list. *)
Definition adjacent {A} (a b : A) (l : list A) : Prop :=
  exists pre post, l = pre ++ a :: b :: post.

End Vocabulary.

(** * Properties *)

(** ** Sequencing *)

Section Preservation.
Context {P : chip8.Package}.
Variable R : Globals -> Globals -> Prop.
Hypothesis R_refl : forall g, R g g.
Hypothesis R_trans : forall a b c, R a b -> R b c -> R a c.

Lemma preserves_ret A (a : A) : preserves R (ret a).
Proof. intros g r g' H. inversion H; subst. apply R_refl. Qed.

Lemma preserves_bind A B (c : Go A) (k : A -> Go B) :
  preserves R c -> (forall a, preserves R (k a)) -> preserves R (bind c k).
Proof.
  intros Hc Hk g r g' H. unfold bind in H.
  destruct (c g) as [[a | v] g1] eqn:E.
  - apply (R_trans _ g1); [exact (Hc _ _ _ E) | exact (Hk a _ _ _ H)].
  - inversion H; subst. exact (Hc _ _ _ E).
Qed.

Lemma preserves_modify (f : Globals -> Globals) :
  (forall g, R g (f g)) -> preserves R (modify f).
Proof. intros Hf g r g' H. inversion H; subst. apply Hf. Qed.

Lemma preserves_call A (e : Event) (c : Completion A) :
  (forall g, R g (emit e g)) -> preserves R (call e c).
Proof. intros He g r g' H. inversion H; subst. apply He. Qed.

Lemma preserves_defer_recover (deferred : option PanicValue -> Go unit) (body : Go unit) :
  preserves R body -> (forall r, preserves R (deferred r)) ->
  preserves R (defer_recover deferred body).
Proof.
  intros Hb Hd g r g' H. unfold defer_recover in H.
  destruct (body g) as [[a | v] g1] eqn:E;
    (apply (R_trans _ g1); [exact (Hb _ _ _ E) | exact (Hd _ _ _ _ H)]).
Qed.
End Preservation.

(** ** The loader *)

Section Load_facts.
Context {P : chip8.Package}.
Local Open Scope go_scope.

Lemma advanced_by_nil (g : Globals) : advanced_by [] g g.
Proof. unfold advanced_by. rewrite app_nil_r. repeat split. Qed.

Lemma advanced_by_app (l1 l2 : list Event) (a b c : Globals) :
  advanced_by l1 a b -> advanced_by l2 b c -> advanced_by (l1 ++ l2) a c.
Proof.
  intros (F1 & A1 & B1 & P1 & L1) (F2 & A2 & B2 & P2 & L2).
  unfold advanced_by. rewrite app_assoc, <- L1. repeat split; congruence.
Qed.

Lemma loads_refl (g : Globals) : loads g g.
Proof. exists []. split; [apply advanced_by_nil | reflexivity]. Qed.

Lemma loads_trans (a b c : Globals) : loads a b -> loads b c -> loads a c.
Proof.
  intros (l1 & H1 & Q1) (l2 & H2 & Q2). exists (l1 ++ l2). split.
  - exact (advanced_by_app _ _ _ _ _ H1 H2).
  - rewrite filter_app, Q1, Q2. reflexivity.
Qed.

Lemma loads_emit (e : Event) (g : Globals) :
  is_loop_event e = false -> loads g (emit e g).
Proof.
  intros He. exists [e]. split.
  - unfold advanced_by. repeat split.
  - simpl. rewrite He. reflexivity.
Qed.

Lemma loads_set_VM (m : chip8.CHIP_8) (g : Globals) : loads g (set_VM m g).
Proof. exists []. split; [| reflexivity]. unfold advanced_by; simpl. rewrite app_nil_r. repeat split. Qed.

(** From an outcome [c g = (r, g')] to the relation, through what is
    known of [c]. *)
Ltac by_preservation H :=
  match type of H with
  | ?c ?g = (?r, ?g') =>
      let Hc := fresh "Hc" in
      assert (Hc : preserves loads c);
      [ clear H | exact (Hc g r g' H) ]
  end.

Ltac preserves_loads :=
  repeat first
    [ apply preserves_bind; [exact loads_trans | | intros ?]
    | apply preserves_call; intros ?; now apply loads_emit
    | apply preserves_modify; intros ?; now apply loads_emit
    | apply preserves_modify, loads_set_VM
    | apply preserves_ret, loads_refl
    | assumption ].

Lemma add_breakpoints_loads (bs : list chip8.Address) :
  preserves loads (add_breakpoints bs).
Proof.
  induction bs as [| b rest IH]; simpl.
  - apply preserves_ret, loads_refl.
  - intros g r g' H. destruct (VM g) as [m |].
    + by_preservation H. preserves_loads.
    + inversion H; subst. apply loads_refl.
Qed.

Lemma Load_body_loads : preserves loads Load_body.
Proof.
  unfold Load_body. intros g r g' H.
  destruct (String.eqb (File g) ""); [| destruct (Assemble g)];
    by_preservation H; preserves_loads.
  apply add_breakpoints_loads.
Qed.

Lemma Load_deferred_loads (r : option PanicValue) : preserves loads (Load_deferred r).
Proof.
  destruct r as [r |]; simpl; unfold Println; preserves_loads.
Qed.

(** [Load] writes [VM] and the log only, and logs nothing of the loop. *)
Lemma Load_loads : preserves loads Load.
Proof.
  apply preserves_defer_recover.
  - exact loads_trans.
  - exact Load_body_loads.
  - exact Load_deferred_loads.
Qed.

Lemma add_breakpoints_VM (bs : list chip8.Address) (g g' : Globals) (c : Completion unit) :
  VM g <> None -> add_breakpoints bs g = (c, g') -> VM g' <> None.
Proof.
  revert g. induction bs as [| b rest IH]; simpl; intros g Hg H.
  - inversion H; subst. exact Hg.
  - destruct (VM g) as [m |] eqn:E; [| congruence].
    unfold bind, call, modify in H.
    destruct (chip8.AddBreakpoint m b) as [m' | v].
    + eapply IH; [| exact H]. simpl. discriminate.
    + inversion H; subst. simpl. congruence.
Qed.

(** When the statements of [Load] run to their end, [VM] has been assigned. *)
Lemma Load_body_returns_VM (g g' : Globals) (u : unit) :
  Load_body g = (Returns u, g') -> VM g' <> None.
Proof.
  unfold Load_body, bind, call, modify. intros H.
  destruct (String.eqb (File g) "").
  - destruct (chip8.LoadROM chip8.Pong); inversion H; subst; simpl; discriminate.
  - destruct (Assemble g).
    + destruct (chip8.Assemble (File g)) as [asm | v]; [| discriminate].
      destruct (chip8.LoadROM (chip8.ROM asm)) as [m | v]; [| discriminate].
      eapply add_breakpoints_VM; [| exact H]. simpl. discriminate.
    + destruct (chip8.LoadFile (File g)); inversion H; subst; simpl; discriminate.
Qed.

(** The [range] loop of [Load] against [register]. *)
Lemma add_breakpoints_register (bs : list chip8.Address) (g : Globals) (m0 m : chip8.CHIP_8) :
  VM g = Some m0 -> register m0 bs = Returns m ->
  exists g', add_breakpoints bs g = (Returns tt, g') /\ VM g' = Some m /\
             advanced_by (map EvAddBreakpoint bs) g g'.
Proof.
  revert g m0. induction bs as [| b rest IH]; simpl; intros g m0 Hg Hr.
  - inversion Hr; subst. exists g.
    split; [reflexivity | split; [exact Hg | apply advanced_by_nil]].
  - rewrite Hg. unfold bind, call, modify.
    destruct (chip8.AddBreakpoint m0 b) as [m1 |]; [| discriminate].
    destruct (IH (set_VM m1 (emit (EvAddBreakpoint b) g)) m1 eq_refl Hr)
      as (g' & Hrun & Hvm & Hadv).
    exists g'. split; [exact Hrun | split; [exact Hvm |]].
    change (EvAddBreakpoint b :: map EvAddBreakpoint rest)
      with ([EvAddBreakpoint b] ++ map EvAddBreakpoint rest).
    refine (advanced_by_app _ _ _ _ _ _ Hadv).
    unfold advanced_by; simpl. repeat split.
Qed.

(** What the deferred function does with a recovered panic when the
    dummy image loads. *)
Lemma Load_deferred_recovers (r : PanicValue) (d : chip8.CHIP_8) (g : Globals) :
  chip8.LoadROM chip8.Dummy = Returns d ->
  Load_deferred (Some r) g =
    (Returns tt, set_VM d (emit (EvLoadROM chip8.Dummy) (emit (EvPrintln r) g))).
Proof.
  intros Hd. unfold Load_deferred, bind, call, modify, Println. simpl.
  rewrite Hd. reflexivity.
Qed.

(** With a dummy ROM that loads, [Load] returns. *)
Lemma Load_total (g : Globals) (d : chip8.CHIP_8) :
  chip8.LoadROM chip8.Dummy = Returns d -> exists g', Load g = (Returns tt, g').
Proof.
  intros Hdummy. unfold Load, defer_recover.
  destruct (Load_body g) as [[[] | r] g1].
  - exists g1. reflexivity.
  - rewrite (Load_deferred_recovers r d g1 Hdummy). eexists. reflexivity.
Qed.

(** C1. Whatever the load request (no file, a binary, a source to
    assemble) and whatever fails while the machine is produced, [Load]
    returns to its caller: it has printed the value of the panic,
    loaded the dummy ROM and made it the machine.  When nothing fails
    the machine is the one that was produced.  In both cases [VM] is
    not nil afterwards.  The dummy ROM itself is taken to load. *)
Theorem Load_recovers (g : Globals) (d : chip8.CHIP_8)
  (Hdummy : chip8.LoadROM chip8.Dummy = Returns d) :
  exists g',
    Load g = (Returns tt, g') /\
    VM g' <> None /\
    (forall r g1, Load_body g = (Panics r, g1) ->
       VM g' = Some d /\
       log g' = log g1 ++ [EvPrintln r; EvLoadROM chip8.Dummy]) /\
    (forall g1, Load_body g = (Returns tt, g1) -> g' = g1).
Proof.
  unfold Load, defer_recover.
  destruct (Load_body g) as [[[] | r] g1] eqn:E.
  - exists g1. split; [reflexivity |]. split; [| split].
    + exact (Load_body_returns_VM _ _ _ E).
    + intros r' g2 H. discriminate.
    + intros g2 H. congruence.
  - rewrite (Load_deferred_recovers r d g1 Hdummy).
    eexists. split; [reflexivity |]. split; [| split].
    + simpl. discriminate.
    + intros r' g2 H. inversion H; subst. split; [reflexivity |].
      simpl. rewrite <- app_assoc. reflexivity.
    + intros g2 H. discriminate.
Qed.

(** [Load] never comes back with [VM] nil. *)
Lemma Load_returns_VM (g g' : Globals) (u : unit) :
  Load g = (Returns u, g') -> VM g' <> None.
Proof.
  unfold Load, defer_recover.
  destruct (Load_body g) as [[[] | r] g1] eqn:E; simpl.
  - intros H. inversion H; subst. exact (Load_body_returns_VM _ _ _ E).
  - unfold bind, call, modify, Println.
    destruct (chip8.LoadROM chip8.Dummy) as [d | v]; intros H; inversion H; subst.
    simpl. discriminate.
Qed.


Lemma register_appends (set_of : chip8.CHIP_8 -> list chip8.Address)
  (Hcontract : forall m a m', chip8.AddBreakpoint m a = Returns m' -> set_of m' = set_of m ++ [a])
  (bs : list chip8.Address) (m0 m : chip8.CHIP_8) :
  register m0 bs = Returns m -> set_of m = set_of m0 ++ bs.
Proof.
  revert m0. induction bs as [| b rest IH]; simpl; intros m0 H.
  - inversion H; subst. now rewrite app_nil_r.
  - destruct (chip8.AddBreakpoint m0 b) as [m1 |] eqn:E; [| discriminate].
    rewrite (IH _ H), (Hcontract _ _ _ E), <- app_assoc. reflexivity.
Qed.

(** C8. With the assemble flag on, a source that assembles, an image
    that loads and registrations that all return, [Load] calls
    [AddBreakpoint] once for each address of [asm.Breakpoints], in
    order, on the machine built from [asm.ROM] and after it was built;
    [VM] is that machine with these N registrations, so any breakpoint
    listing to which a registration adds its address has grown by
    exactly those N addresses.  All of it is logged before any entry of
    the loop. *)
Theorem Load_registers_breakpoints (g : Globals)
  (asm : chip8.Assembly chip8.Address) (m0 m : chip8.CHIP_8)
  (Hfile : File g <> "") (Hassemble : Assemble g = true)
  (Hasm : chip8.Assemble (File g) = Returns asm)
  (Himage : chip8.LoadROM (chip8.ROM asm) = Returns m0)
  (Hregister : register m0 (chip8.Breakpoints asm) = Returns m) :
  exists g',
    Load g = (Returns tt, g') /\
    VM g' = Some m /\
    log g' = log g ++ EvAssemble (File g) :: EvLoadROM (chip8.ROM asm)
                   :: map EvAddBreakpoint (chip8.Breakpoints asm) /\
    List.length (filter is_AddBreakpoint
                   (EvAssemble (File g) :: EvLoadROM (chip8.ROM asm)
                      :: map EvAddBreakpoint (chip8.Breakpoints asm)))
      = List.length (chip8.Breakpoints asm) /\
    filter is_loop_event
      (EvAssemble (File g) :: EvLoadROM (chip8.ROM asm)
         :: map EvAddBreakpoint (chip8.Breakpoints asm)) = [] /\
    (forall set_of : chip8.CHIP_8 -> list chip8.Address,
       (forall m1 a m2, chip8.AddBreakpoint m1 a = Returns m2 ->
                        set_of m2 = set_of m1 ++ [a]) ->
       set_of m = set_of m0 ++ chip8.Breakpoints asm).
Proof.
  apply String.eqb_neq in Hfile.
  destruct (add_breakpoints_register (chip8.Breakpoints asm)
              (set_VM m0 (emit (EvLoadROM (chip8.ROM asm)) (emit (EvAssemble (File g)) g)))
              m0 m eq_refl Hregister) as (g' & Hrun & Hvm & Hadv).
  exists g'. split; [| split; [exact Hvm | split; [| split; [| split]]]].
  - unfold Load, defer_recover, Load_body. rewrite Hfile, Hassemble.
    unfold bind at 1, call at 1. rewrite Hasm.
    unfold bind at 1, call at 1. rewrite Himage.
    unfold bind at 1, modify at 1. simpl File in *. rewrite Hrun. reflexivity.
  - destruct Hadv as (_ & _ & _ & _ & Hlog). rewrite Hlog. simpl.
    repeat rewrite <- app_assoc. reflexivity.
  - simpl. clear. induction (chip8.Breakpoints asm) as [| b rest IH]; simpl; [reflexivity | now rewrite IH].
  - simpl. clear. induction (chip8.Breakpoints asm) as [| b rest IH]; simpl; [reflexivity | exact IH].
  - intros set_of Hcontract. exact (register_appends set_of Hcontract _ _ _ Hregister).
Qed.

End Load_facts.


(** ** One turn of the loop *)

Section Turn_facts.
Context {P : chip8.Package} {F : Frontend}.

(** The condition of the [for] with a machine in place. *)
Lemma poll_returns (ev : Events) (g : Globals) (m : chip8.CHIP_8) :
  VM g = Some m ->
  exists g1,
    poll ev g = (Returns (snd (ProcessEvents ev m (Paused g))), g1) /\
    VM g1 = Some (fst (fst (ProcessEvents ev m (Paused g)))) /\
    Paused g1 = snd (fst (ProcessEvents ev m (Paused g))) /\
    log g1 = log g ++ [EvProcessEvents (snd (ProcessEvents ev m (Paused g)))].
Proof.
  intros Hvm. unfold poll. rewrite Hvm.
  destruct (ProcessEvents ev m (Paused g)) as [[m' p'] ok]. cbn [fst snd].
  eexists. split; [reflexivity |]. repeat split.
Qed.

(** [Refresh] returns, and only the log has changed: drawing calls. *)
Lemma Refresh_returns (g : Globals) :
  Refresh g =
    (Returns tt,
     {| File := File g; Assemble := Assemble g; Break := Break g;
        VM := VM g; Paused := Paused g; log := log g ++ Refresh_log |}).
Proof.
  unfold Refresh_log.
  cbv [Refresh Frame bind draw modify emit zero snd log File Assemble Break VM Paused].
  cbn [app]. repeat rewrite <- app_assoc. cbn [app]. reflexivity.
Qed.

Lemma Refresh_log_quiet : filter is_loop_event Refresh_log = [].
Proof. reflexivity. Qed.

(** The clock case with a machine in place: one [Process] call with
    the current run state, then the breakpoint branch or nothing. *)
Lemma on_clock_returns (t : chip8.Tick) (g : Globals) (m : chip8.CHIP_8) :
  VM g = Some m ->
  exists g',
    on_clock t g = (Returns tt, g') /\
    VM g' = Some (fst (chip8.Process t m (Paused g))) /\
    Paused g' = (chip8.is_Breakpoint (snd (chip8.Process t m (Paused g))) || Paused g)%bool /\
    log g' = log g ++ EvProcess (Paused g) ::
               match snd (chip8.Process t m (Paused g)) with
               | chip8.Breakpoint msg => [EvPrintln msg]
               | _ => []
               end.
Proof.
  intros Hvm. unfold on_clock. rewrite Hvm.
  destruct (chip8.Process t m (Paused g)) as [m' [| msg | msg]];
    cbn [fst snd chip8.is_Breakpoint orb];
    (eexists; split; [reflexivity |]);
    cbv [bind Println modify emit set_Paused set_VM VM Paused log];
    repeat rewrite <- app_assoc; repeat split.
Qed.

(** The [select] statement can only fail for want of a machine, and
    then it does nothing. *)
Lemma select_without_VM (i : Iteration) (g g' : Globals) (r : PanicValue) :
  select i g = (Panics r, g') -> g' = g /\ VM g = None.
Proof.
  unfold select. destruct (fired i).
  - rewrite Refresh_returns. discriminate.
  - unfold on_clock. destruct (VM g) as [m |].
    + destruct (chip8.Process (tick i) m (Paused g)) as [m' [| msg | msg]]; discriminate.
    + intros H. inversion H. split; reflexivity.
Qed.

(** No case of the [select] statement clears [Paused]. *)
Lemma select_keeps_paused (i : Iteration) (g g' : Globals) (c : Completion unit) :
  Paused g = true -> select i g = (c, g') -> Paused g' = true.
Proof.
  intros Hp. unfold select. destruct (fired i).
  - rewrite Refresh_returns. intros H. inversion H; subst. exact Hp.
  - destruct (VM g) as [m |] eqn:Hvm.
    + destruct (on_clock_returns (tick i) g m Hvm) as (g1 & Hr & _ & Hp1 & _).
      rewrite Hr. intros H. inversion H; subst. rewrite Hp1, Hp. apply orb_true_r.
    + unfold on_clock. rewrite Hvm. intros H. inversion H; subst. exact Hp.
Qed.

(** With a machine in place the [select] statement returns and leaves
    a machine in place. *)
Lemma select_returns (i : Iteration) (g : Globals) (m : chip8.CHIP_8) :
  VM g = Some m ->
  exists g' m', select i g = (Returns tt, g') /\ VM g' = Some m'.
Proof.
  intros Hvm. unfold select. destruct (fired i).
  - rewrite Refresh_returns. eexists. exists m. split; [reflexivity | exact Hvm].
  - destruct (on_clock_returns (tick i) g m Hvm) as (g1 & Hr & Hv & _).
    eexists. eexists. split; [exact Hr | exact Hv].
Qed.

(** C2. When the clock channel delivers and [VM.Process] comes back
    with a [chip8.Breakpoint], the turn prints the breakpoint's
    [Error()] text and sets [Paused]: the next turn of the loop starts
    from a state in which [Paused] is true. *)
Theorem breakpoint_pauses (i : Iteration) (rest : list Iteration)
  (g g1 : Globals) (m m' : chip8.CHIP_8) (msg : string)
  (Hpoll : poll (pending i) g = (Returns true, g1))
  (Hclock : fired i = clock)
  (Hvm : VM g1 = Some m)
  (Hres : chip8.Process (tick i) m (Paused g1) = (m', chip8.Breakpoint msg)) :
  exists g2,
    select i g1 = (Returns tt, g2) /\
    loop (i :: rest) g = loop rest g2 /\
    Paused g2 = true /\
    VM g2 = Some m' /\
    log g2 = log g1 ++ [EvProcess (Paused g1); EvPrintln msg].
Proof.
  destruct (on_clock_returns (tick i) g1 m Hvm) as (g2 & Hr & Hv & Hp & Hl).
  rewrite Hres in Hv, Hp, Hl. cbn [fst snd chip8.is_Breakpoint orb] in Hv, Hp, Hl.
  assert (Hsel : select i g1 = (Returns tt, g2)).
  { unfold select. rewrite Hclock. exact Hr. }
  exists g2. split; [exact Hsel |]. split; [| split; [exact Hp | split; [exact Hv | exact Hl]]].
  cbn [loop]. rewrite Hpoll, Hsel. reflexivity.
Qed.

(** C10. A turn in which [VM.Process] returns anything but a
    [chip8.Breakpoint] leaves [Paused] as it was, and so does a turn of
    the video channel: a turn that changes [Paused] is a clock turn
    whose [Process] call returned a [chip8.Breakpoint]. *)
Theorem only_breakpoint_writes_Paused (i : Iteration) (g g' : Globals)
  (c : Completion unit) (Hturn : select i g = (c, g')) :
  (forall m, fired i = clock -> VM g = Some m ->
     chip8.is_Breakpoint (snd (chip8.Process (tick i) m (Paused g))) = false ->
     Paused g' = Paused g) /\
  (fired i = video -> Paused g' = Paused g) /\
  (Paused g' <> Paused g ->
     exists m, fired i = clock /\ VM g = Some m /\
       chip8.is_Breakpoint (snd (chip8.Process (tick i) m (Paused g))) = true).
Proof.
  unfold select in Hturn. destruct (fired i) eqn:Hf.
  - rewrite Refresh_returns in Hturn. inversion Hturn; subst. cbn [Paused].
    split; [reflexivity | split; [reflexivity | congruence]].
  - destruct (VM g) as [m |] eqn:Hvm.
    + destruct (on_clock_returns (tick i) g m Hvm) as (g1 & Hr & _ & Hp1 & _).
      rewrite Hr in Hturn. inversion Hturn; subst. split; [| split].
      * intros m0 _ Hm0 Hnb. inversion Hm0; subst. rewrite Hp1, Hnb. reflexivity.
      * discriminate.
      * intros Hne. exists m. split; [reflexivity | split; [reflexivity |]].
        destruct (chip8.is_Breakpoint (snd (chip8.Process (tick i) m (Paused g))));
          [reflexivity | cbn [orb] in Hp1; congruence].
    + unfold on_clock in Hturn. rewrite Hvm in Hturn. inversion Hturn; subst.
      split; [discriminate | split; [discriminate | congruence]].
Qed.

End Turn_facts.

(** ** The loop *)

Section Loop_facts.
Context {P : chip8.Package} {F : Frontend}.

(** What a turn adds to the log after its [ProcessEvents] call. *)
Lemma select_log (i : Iteration) (g g' : Globals) (c : Completion unit) :
  select i g = (c, g') ->
  exists l, log g' = log g ++ l /\ filter is_ProcessEvents l = [] /\
    (fired i = video -> filter is_Process l = []).
Proof.
  unfold select. destruct (fired i).
  - rewrite Refresh_returns. intros H. inversion H; subst.
    exists Refresh_log. split; [reflexivity | split; reflexivity].
  - destruct (VM g) as [m |] eqn:Hvm.
    + destruct (on_clock_returns (tick i) g m Hvm) as (g1 & Hr & _ & _ & Hl).
      rewrite Hr. intros H. inversion H; subst. eexists. split; [exact Hl |].
      split; [| discriminate].
      destruct (snd (chip8.Process (tick i) m (Paused g))); reflexivity.
    + unfold on_clock. rewrite Hvm. intros H. inversion H; subst.
      exists []. rewrite app_nil_r. split; [reflexivity | split; [reflexivity | discriminate]].
Qed.

(** One turn, with a machine in place: the condition is evaluated
    first; false ends the loop there; true runs the [select] statement
    and goes round again, still with a machine in place. *)
Lemma loop_turn (i : Iteration) (g : Globals) (m : chip8.CHIP_8) :
  VM g = Some m ->
  exists g1 continue,
    poll (pending i) g = (Returns continue, g1) /\
    continue = snd (ProcessEvents (pending i) m (Paused g)) /\
    Paused g1 = snd (fst (ProcessEvents (pending i) m (Paused g))) /\
    log g1 = log g ++ [EvProcessEvents continue] /\
    (continue = false -> forall rest, loop (i :: rest) g = Exited g1) /\
    (continue = true ->
       exists g2 m2 l, select i g1 = (Returns tt, g2) /\ VM g2 = Some m2 /\
                       log g2 = log g1 ++ l /\ filter is_ProcessEvents l = [] /\
                       (fired i = video -> filter is_Process l = []) /\
                       forall rest, loop (i :: rest) g = loop rest g2).
Proof.
  intros Hvm.
  destruct (poll_returns (pending i) g m Hvm) as (g1 & Hpoll & Hv1 & Hp1 & Hl1).
  exists g1, (snd (ProcessEvents (pending i) m (Paused g))).
  split; [exact Hpoll |]. split; [reflexivity |]. split; [exact Hp1 |].
  split; [exact Hl1 |]. split.
  - intros Hc rest. cbn [loop]. rewrite Hpoll, Hc. reflexivity.
  - intros Hc.
    destruct (select_returns i g1 _ Hv1) as (g2 & m2 & Hs & Hv2).
    destruct (select_log i g1 g2 _ Hs) as (l & Hl & Hq & Hvid).
    exists g2, m2, l. repeat (split; [assumption |]).
    intros rest. cbn [loop]. rewrite Hpoll, Hc, Hs. reflexivity.
Qed.


(** C3. From a state in which [Paused] is set, as a breakpoint leaves
    it, no turn of the loop clears it: the [select] statement keeps it
    set whichever channel delivers and whatever [Process] returns, and
    as long as the [ProcessEvents] calls (the user's resume key) keep
    it set, it is set in every state the loop reaches. *)
Theorem loop_never_resumes (ins : list Iteration) (g : Globals)
  (Hpaused : Paused g = true)
  (Hno_resume : forall i m, In i ins ->
                  snd (fst (ProcessEvents (pending i) m true)) = true) :
  Paused (final (loop ins g)) = true /\
  (forall i c g', select i g = (c, g') -> Paused g' = true).
Proof.
  split; [| intros i c g' H; exact (select_keeps_paused i g g' c Hpaused H)].
  revert g Hpaused. induction ins as [| i rest IH]; intros g Hpaused; [exact Hpaused |].
  destruct (VM g) as [m |] eqn:Hvm.
  - destruct (loop_turn i g m Hvm)
      as (g1 & ok & Hpoll & _ & Hp1 & _ & Hquit & Hgo).
    rewrite Hpaused, (Hno_resume i m (or_introl eq_refl)) in Hp1.
    destruct ok.
    + destruct (Hgo eq_refl) as (g2 & m2 & l & Hs & _ & _ & _ & _ & Hloop).
      rewrite (Hloop rest). apply IH.
      * intros j m' Hj. apply Hno_resume. right. exact Hj.
      * exact (select_keeps_paused i g1 g2 _ Hp1 Hs).
    + rewrite (Hquit eq_refl rest). exact Hp1.
  - cbn [loop]. unfold poll. rewrite Hvm. exact Hpaused.
Qed.


End Loop_facts.

(** ** Start-up *)

Section Startup_facts.
Context {P : chip8.Package} {F : Frontend}.

Lemma no_loop_event_no_Process (l : list Event) :
  filter is_loop_event l = [] -> filter is_Process l = [].
Proof.
  induction l as [| e l IH]; [reflexivity |].
  cbn [filter]. unfold is_loop_event at 1.
  destruct (is_Process e); cbn [orb]; [discriminate |].
  destruct (is_ProcessEvents e); [discriminate | exact IH].
Qed.

Ltac run_startup :=
  unfold main_startup; cbv [bind draw modify Println ret panic].

(** When [main] reaches its loop: [Break] holds the -b flag, [Paused]
    has just been given the value of [Break], [Load] has left a
    machine, nothing of the loop has been logged, and the last things
    done were the creation of the two tickers and the greeting. *)
Lemma main_startup_returns (cl : CommandLine) (h : Host) (g : Globals) :
  main_startup cl h zero = (Returns tt, g) ->
  Break g = opt_b cl /\ Paused g = Break g /\ VM g <> None /\
  filter is_loop_event (log g) = [] /\
  exists l, log g = l ++ [EvNewTicker clock_period; EvNewTicker video_period;
                          EvPrintln (String (Ascii.ascii_of_nat 10)
                                       "Starting program; press F1 for help")].
Proof.
  run_startup.
  destruct (sdl_Init h); [discriminate |].
  destruct (sdl_CreateWindowAndRenderer h); [discriminate |].
  destruct (sdl_LoadBMP h); cbv beta iota;
    match goal with |- context [negb ?b] => destruct (negb b) end;
    match goal with |- context [Load ?X] =>
      destruct (Load X) as [[[] | r] g1] eqn:EL end;
    try discriminate;
    destruct (Load_loads _ _ _ EL) as (l & (_ & _ & HB & _ & HL) & Hq);
    pose proof (Load_returns_VM _ _ _ EL) as HV;
    intros H; inversion H; subst; clear H;
    cbn [Break Paused VM log emit set_Paused];
    (split; [rewrite HB; reflexivity |]);
    (split; [reflexivity |]);
    (split; [exact HV |]);
    (split;
     [ rewrite HL; repeat rewrite filter_app; rewrite Hq; reflexivity
     | exists (log g1 ++ [EvCall "InitScreen" []; EvCall "InitAudio" []; EvCall "InitFont" []]);
       repeat rewrite <- app_assoc; reflexivity ]).
Qed.

(** With SDL up and a dummy ROM that loads, [main] reaches its loop. *)
Lemma main_startup_total (cl : CommandLine) (h : Host) (d : chip8.CHIP_8) :
  sdl_Init h = None -> sdl_CreateWindowAndRenderer h = None ->
  chip8.LoadROM chip8.Dummy = Returns d ->
  exists g, main_startup cl h zero = (Returns tt, g).
Proof.
  intros Hinit Hwindow Hdummy. run_startup. rewrite Hinit, Hwindow.
  destruct (sdl_LoadBMP h); cbv beta iota;
    match goal with |- context [negb ?b] => destruct (negb b) end;
    match goal with |- context [Load ?X] =>
      destruct (Load_total X d Hdummy) as (g1 & HL); rewrite HL end;
    eexists; reflexivity.
Qed.

(** Turns of the video channel, with [Paused] set and no resume or
    quit among the events: the loop goes through them, [Paused] stays
    set and [Process] is not called. *)
Lemma video_turns (pre : list Iteration) (g : Globals) (m : chip8.CHIP_8) :
  VM g = Some m -> Paused g = true ->
  Forall (fun j => fired j = video) pre ->
  (forall j m', In j pre ->
     snd (fst (ProcessEvents (pending j) m' true)) = true /\
     snd (ProcessEvents (pending j) m' true) = true) ->
  exists g' m',
    (forall rest, loop (pre ++ rest) g = loop rest g') /\
    VM g' = Some m' /\ Paused g' = true /\
    filter is_Process (log g') = filter is_Process (log g).
Proof.
  revert g m. induction pre as [| i pre IH]; intros g m Hvm Hp Hvid Hev.
  - exists g, m. repeat split; assumption.
  - inversion Hvid as [| ? ? Hi Hpre]; subst.
    destruct (Hev i m (or_introl eq_refl)) as (Hkeep & Hcont).
    destruct (loop_turn i g m Hvm)
      as (g1 & ok & Hpoll & Hok & Hp1 & Hl1 & _ & Hgo).
    rewrite Hp in Hok, Hp1. rewrite Hcont in Hok. rewrite Hkeep in Hp1.
    destruct (Hgo Hok) as (g2 & m2 & l & Hs & Hv2 & Hl2 & _ & Hnp & Hloop).
    pose proof (select_keeps_paused i g1 g2 _ Hp1 Hs) as Hp2.
    destruct (IH g2 m2 Hv2 Hp2 Hpre (fun j m' Hj => Hev j m' (or_intror Hj)))
      as (g' & m' & Hrest & Hv' & Hp' & Hl').
    exists g', m'. split; [| split; [exact Hv' | split; [exact Hp' |]]].
    + intros rest. cbn [app]. rewrite (Hloop (pre ++ rest)). apply Hrest.
    + rewrite Hl', Hl2, Hl1, Hok. repeat rewrite filter_app. rewrite (Hnp Hi).
      cbn [filter is_Process]. repeat rewrite app_nil_r. reflexivity.
Qed.

(** A turn of the clock channel calls [Process] exactly once, with the
    value [Paused] has at that moment. *)
Lemma clock_turn (i : Iteration) (g : Globals) (m : chip8.CHIP_8) :
  fired i = clock -> VM g = Some m ->
  exists g',
    select i g = (Returns tt, g') /\
    VM g' = Some (fst (chip8.Process (tick i) m (Paused g))) /\
    filter is_Process (log g') = filter is_Process (log g) ++ [EvProcess (Paused g)].
Proof.
  intros Hclock Hvm.
  destruct (on_clock_returns (tick i) g m Hvm) as (g' & Hr & Hv & _ & Hl).
  exists g'. split; [unfold select; rewrite Hclock; exact Hr |]. split; [exact Hv |].
  rewrite Hl, filter_app. f_equal.
  destruct (snd (chip8.Process (tick i) m (Paused g))); reflexivity.
Qed.

(** C4. Whenever the clock channel delivers, the turn calls
    [VM.Process] once and hands it the value of [Paused] at that
    moment, set or not; the machine becomes what the call returns.  In
    particular, started with -b and with no resume or quit among the
    events that come first, the first delivery of the clock channel
    makes the first [Process] call of the run, with paused = true. *)
Theorem clock_always_calls_Process :
  (forall (i : Iteration) (g : Globals) (m : chip8.CHIP_8),
     fired i = clock -> VM g = Some m ->
     exists g',
       select i g = (Returns tt, g') /\
       VM g' = Some (fst (chip8.Process (tick i) m (Paused g))) /\
       filter is_Process (log g') =
         filter is_Process (log g) ++ [EvProcess (Paused g)]) /\
  (forall (cl : CommandLine) (h : Host) (g0 : Globals)
          (pre : list Iteration) (i : Iteration),
     opt_b cl = true ->
     main_startup cl h zero = (Returns tt, g0) ->
     Forall (fun j => fired j = video) pre ->
     fired i = clock ->
     (forall j m, In j (pre ++ [i]) ->
        snd (fst (ProcessEvents (pending j) m true)) = true /\
        snd (ProcessEvents (pending j) m true) = true) ->
     filter is_Process (log (final (main cl h (pre ++ [i])))) = [EvProcess true]).
Proof.
  split; [exact clock_turn |].
  intros cl h g0 pre i Hb Hstart Hvid Hclock Hev.
  destruct (main_startup_returns cl h g0 Hstart) as (HB & HP & HV & Hq & _).
  destruct (VM g0) as [m0 |] eqn:Hvm0; [clear HV | congruence].
  assert (Hp0 : Paused g0 = true) by congruence.
  destruct (video_turns pre g0 m0 Hvm0 Hp0 Hvid
              (fun j m' Hj => Hev j m' (in_or_app _ _ _ (or_introl Hj))))
    as (g & m & Hloop & Hvm & Hp & Hl).
  assert (Hin : In i (pre ++ [i])) by (apply in_or_app; right; left; reflexivity).
  destruct (Hev i m Hin) as (Hkeep & Hcont).
  destruct (loop_turn i g m Hvm)
    as (g1 & ok & Hpoll & Hok & Hp1 & Hl1 & _ & Hgo).
  rewrite Hp in Hok, Hp1. rewrite Hcont in Hok. rewrite Hkeep in Hp1.
  destruct (Hgo Hok) as (g2 & m2 & l & Hs & _ & _ & _ & _ & Hturn).
  destruct (poll_returns (pending i) g m Hvm) as (g1' & Hpoll' & Hv1 & _).
  assert (g1' = g1) by congruence. subst g1'.
  destruct (clock_turn i g1 _ Hclock Hv1) as (g2' & Hs' & _ & Hl2).
  assert (g2' = g2) by congruence. subst g2'.
  unfold main. rewrite Hstart, (Hloop [i]), (Hturn []). cbn [loop final].
  rewrite Hl2, Hl1, Hp1, Hok, filter_app, Hl.
  rewrite (no_loop_event_no_Process _ Hq). reflexivity.
Qed.

(** C6. When [main] enters its loop, [Paused] has the value of the -b
    flag of the command line: set if and only if the flag was given.
    With SDL up and a dummy ROM that loads, the loop is entered. *)
Theorem initial_run_state (cl : CommandLine) (h : Host) :
  (forall g, main_startup cl h zero = (Returns tt, g) ->
     Paused g = opt_b cl /\ (Paused g = true <-> opt_b cl = true) /\
     forall ins, main cl h ins = loop ins g) /\
  (forall d, sdl_Init h = None -> sdl_CreateWindowAndRenderer h = None ->
     chip8.LoadROM chip8.Dummy = Returns d ->
     exists g, main_startup cl h zero = (Returns tt, g) /\ Paused g = opt_b cl).
Proof.
  assert (Hflag : forall g, main_startup cl h zero = (Returns tt, g) -> Paused g = opt_b cl).
  { intros g Hstart.
    destruct (main_startup_returns cl h g Hstart) as (HB & HP & _). congruence. }
  split.
  - intros g Hstart. split; [exact (Hflag g Hstart) |]. split.
    + rewrite (Hflag g Hstart). reflexivity.
    + intros ins. unfold main. rewrite Hstart. reflexivity.
  - intros d Hinit Hwindow Hdummy.
    destruct (main_startup_total cl h d Hinit Hwindow Hdummy) as (g & Hstart).
    exists g. split; [exact Hstart | exact (Hflag g Hstart)].
Qed.

(** C9 (as amended). The clock ticker is created with a period of
    exactly two milliseconds, 2000000 ns.  The video ticker is created
    with the period [time.Second / 60] of integer nanoseconds, which is
    16666666 ns: the whole nanoseconds of a sixtieth of a second, less
    than one nanosecond short of it.  These are the two tickers [main]
    creates, in this order, right before its greeting and its loop. *)
Theorem ticker_periods :
  clock_period = 2 * time.Millisecond /\
  clock_period = 2000000 /\
  video_period = Z.quot time.Second 60 /\
  video_period = 16666666 /\
  60 * video_period < time.Second < 60 * (video_period + 1) /\
  (forall (cl : CommandLine) (h : Host) (g : Globals),
     main_startup cl h zero = (Returns tt, g) ->
     exists l, log g = l ++ [EvNewTicker 2000000; EvNewTicker 16666666;
                             EvPrintln (String (Ascii.ascii_of_nat 10)
                                          "Starting program; press F1 for help")]).
Proof.
  repeat (split; [reflexivity |]).
  split; [split; reflexivity |].
  intros cl h g Hstart.
  destruct (main_startup_returns cl h g Hstart) as (_ & _ & _ & _ & l & Hl).
  exists l. exact Hl.
Qed.

End Startup_facts.

(** ** The driver on concrete inputs *)

Section Runs.
#[local] Existing Instance Reference.package.
#[local] Existing Instance Reference.frontend.

(** Started with -a on a source with two breakpoint directives: the
    machine steps onto the first one, reports it and pauses; the
    later clock turns still call [Process], with paused = true. *)
Example run_to_breakpoint :
  let r := Reference.run {| opt_a := true; opt_b := false; args := ["prog.c8"] |}
             [Reference.idle clock; Reference.idle clock; Reference.idle video; Reference.idle clock] in
  Paused (final r) = true /\
  filter is_Process (log (final r)) = [EvProcess false; EvProcess true; EvProcess true] /\
  option_map Reference.breakpoints (VM (final r)) = Some [0x202; 0x204].
Proof. vm_compute. repeat split. Qed.

(** A source that does not assemble: the message, then the dummy ROM. *)
Example run_bad_source :
  Load (Reference.request "bad.c8" true) =
    (Returns tt,
     {| File := "bad.c8"; Assemble := true; Break := false;
        VM := Some Reference.dummy; Paused := false;
        log := [EvAssemble "bad.c8"; EvPrintln "syntax error";
                EvLoadROM Reference.Dummy] |}).
Proof. vm_compute. reflexivity. Qed.

(** Without SDL [main] panics before it loads anything. *)
Example run_without_sdl :
  main Reference.paused_start
       {| sdl_Init := Some "no video device"; sdl_CreateWindowAndRenderer := None;
          sdl_LoadBMP := None |}
       [Reference.idle clock]
  = Panicked "no video device"
      {| File := "game.rom"; Assemble := false; Break := true; VM := None;
         Paused := false;
         log := [EvCall "rand.Seed" []; EvCall "sdl.Init" []] |}.
Proof. vm_compute. reflexivity. Qed.

(** The quit event ends the loop before the turn is served. *)
Example run_quit :
  exists g,
    Reference.run Reference.paused_start
      [Reference.idle video; Reference.turn Reference.Quit clock; Reference.idle clock] = Exited g /\
    filter is_loop_event (log g) = [EvProcessEvents true; EvProcessEvents false].
Proof. eexists. split; vm_compute; reflexivity. Qed.

(** The claim of an exact sixtieth of a second for the video ticker
    fails: sixty periods of [time.Second / 60] do not make a second. *)
Lemma ticker_periods_not_exact :
  ~ (clock_period = 2 * time.Millisecond /\ nth_of_a_second 60 video_period).
Proof. intros [_ H]. vm_compute in H. discriminate. Qed.

(** *** The theorems at concrete inputs *)

Lemma Load_recovers_witness :
  chip8.LoadROM chip8.Dummy = Returns Reference.dummy /\
  exists g',
    Load (Reference.request "bad.c8" true) = (Returns tt, g') /\
    VM g' = Some Reference.dummy.
Proof.
  split; [reflexivity |].
  destruct (Load_recovers (Reference.request "bad.c8" true) Reference.dummy eq_refl)
    as (g' & HL & _ & Hfail & _).
  exists g'. split; [exact HL |].
  refine (proj1 (Hfail "syntax error" _ _)). vm_compute. reflexivity.
Defined.

Lemma breakpoint_pauses_witness :
  poll (pending (Reference.idle clock)) (Reference.at_loop Reference.armed false)
    = (Returns true,
       snd (poll (pending (Reference.idle clock)) (Reference.at_loop Reference.armed false))) /\
  fired (Reference.idle clock) = clock /\
  chip8.Process (tick (Reference.idle clock)) Reference.armed false
    = (Reference.stopped, chip8.Breakpoint "hit breakpoint") /\
  exists g2,
    loop [Reference.idle clock; Reference.idle video]
         (Reference.at_loop Reference.armed false)
      = loop [Reference.idle video] g2 /\
    Paused g2 = true.
Proof.
  split; [vm_compute; reflexivity |]. split; [reflexivity |].
  split; [vm_compute; reflexivity |].
  destruct (breakpoint_pauses (Reference.idle clock) [Reference.idle video]
              (Reference.at_loop Reference.armed false)
              (snd (poll (pending (Reference.idle clock))
                         (Reference.at_loop Reference.armed false)))
              Reference.armed Reference.stopped "hit breakpoint")
    as (g2 & _ & Hloop & Hp & _); try (vm_compute; reflexivity).
  exists g2. split; [exact Hloop | exact Hp].
Defined.

Lemma loop_never_resumes_witness :
  Paused (Reference.at_loop Reference.armed true) = true /\
  Paused (final (loop [Reference.idle clock; Reference.idle video; Reference.idle clock]
                      (Reference.at_loop Reference.armed true))) = true.
Proof.
  split; [reflexivity |].
  refine (proj1 (loop_never_resumes
                   [Reference.idle clock; Reference.idle video; Reference.idle clock]
                   (Reference.at_loop Reference.armed true) eq_refl _)).
  intros i m [<- | [<- | [<- | []]]]; reflexivity.
Defined.

Lemma clock_always_calls_Process_witness :
  opt_b Reference.paused_start = true /\
  fired (Reference.idle clock) = clock /\
  filter is_Process
    (log (final (main Reference.paused_start Reference.sdl_up
                   ([Reference.idle video; Reference.idle video] ++ [Reference.idle clock]))))
    = [EvProcess true].
Proof.
  split; [reflexivity |]. split; [reflexivity |].
  eapply (proj2 clock_always_calls_Process).
  - reflexivity.
  - vm_compute. reflexivity.
  - repeat constructor.
  - reflexivity.
  - intros j m [<- | [<- | [<- | []]]]; split; reflexivity.
Defined.


Lemma initial_run_state_witness :
  sdl_Init Reference.sdl_up = None /\
  sdl_CreateWindowAndRenderer Reference.sdl_up = None /\
  chip8.LoadROM chip8.Dummy = Returns Reference.dummy /\
  exists g,
    main_startup Reference.paused_start Reference.sdl_up zero = (Returns tt, g) /\
    Paused g = true.
Proof.
  repeat (split; [reflexivity |]).
  exact (proj2 (initial_run_state Reference.paused_start Reference.sdl_up)
               Reference.dummy eq_refl eq_refl eq_refl).
Defined.


Lemma Load_registers_breakpoints_witness :
  File (Reference.request "prog.c8" true) <> "" /\
  Assemble (Reference.request "prog.c8" true) = true /\
  chip8.Assemble "prog.c8" = Returns Reference.assembled /\
  chip8.LoadROM (chip8.ROM Reference.assembled) = Returns Reference.fresh /\
  register Reference.fresh (chip8.Breakpoints Reference.assembled)
    = Returns Reference.watched /\
  exists g',
    Load (Reference.request "prog.c8" true) = (Returns tt, g') /\
    VM g' = Some Reference.watched /\
    Reference.breakpoints Reference.watched = [0x202; 0x204].
Proof.
  assert (Hfile : File (Reference.request "prog.c8" true) <> "") by discriminate.
  split; [exact Hfile |]. repeat (split; [reflexivity |]).
  destruct (Load_registers_breakpoints (Reference.request "prog.c8" true)
              Reference.assembled Reference.fresh Reference.watched
              Hfile eq_refl eq_refl eq_refl eq_refl)
    as (g' & HL & HV & _ & _ & _ & Hset).
  exists g'. split; [exact HL |]. split; [exact HV |].
  exact (Hset Reference.breakpoints (fun m1 a m2 H => f_equal Reference.breakpoints
           (eq_sym (f_equal (fun c => match c with Returns x => x | Panics _ => m2 end) H)))).
Defined.

Lemma ticker_periods_witness :
  exists g l,
    main_startup Reference.paused_start Reference.sdl_up zero = (Returns tt, g) /\
    log g = l ++ [EvNewTicker 2000000; EvNewTicker 16666666;
                  EvPrintln (String (Ascii.ascii_of_nat 10)
                               "Starting program; press F1 for help")].
Proof.
  assert (H : main_startup Reference.paused_start Reference.sdl_up zero
              = (Returns tt, snd (main_startup Reference.paused_start Reference.sdl_up zero)))
    by (vm_compute; reflexivity).
  destruct (proj2 (proj2 (proj2 (proj2 (proj2 ticker_periods)))) _ _ _ H) as (l & Hl).
  eexists. exists l. split; [exact H | exact Hl].
Defined.

Lemma only_breakpoint_writes_Paused_witness :
  select (Reference.idle clock) (Reference.at_loop Reference.fresh false)
    = (Returns tt,
       snd (select (Reference.idle clock) (Reference.at_loop Reference.fresh false))) /\
  Paused (snd (select (Reference.idle clock) (Reference.at_loop Reference.fresh false)))
    = Paused (Reference.at_loop Reference.fresh false).
Proof.
  assert (H : select (Reference.idle clock) (Reference.at_loop Reference.fresh false)
              = (Returns tt,
                 snd (select (Reference.idle clock) (Reference.at_loop Reference.fresh false))))
    by (vm_compute; reflexivity).
  split; [exact H |].
  exact (proj1 (only_breakpoint_writes_Paused _ _ _ _ H)
               Reference.fresh eq_refl eq_refl eq_refl).
Defined.

End Runs.

(** * Further properties of the driver *)

(** ** More on the loader *)

Section Loader_outcomes.
Context {P : chip8.Package}.
Local Open Scope go_scope.

(** A registration that panics stops the [range] loop of [Load] with
    that panic. *)
Lemma add_breakpoints_panics (bs : list chip8.Address) (g : Globals)
  (m0 : chip8.CHIP_8) (r : PanicValue) :
  VM g = Some m0 -> register m0 bs = Panics r ->
  exists g', add_breakpoints bs g = (Panics r, g').
Proof.
  revert g m0. induction bs as [| b rest IH]; simpl; intros g m0 Hg Hr.
  - discriminate.
  - rewrite Hg. unfold bind, call, modify.
    destruct (chip8.AddBreakpoint m0 b) as [m1 | v].
    + exact (IH (set_VM m1 (emit (EvAddBreakpoint b) g)) m1 eq_refl Hr).
    + inversion Hr; subst. eexists. reflexivity.
Qed.

(** The statements of [Load] against [produce]: they return with the
    machine [produce] yields in [VM], or panic with its panic. *)
Lemma Load_body_produce (g : Globals) :
  match produce (File g) (Assemble g) with
  | Returns m => exists g1, Load_body g = (Returns tt, g1) /\ VM g1 = Some m
  | Panics r => exists g1, Load_body g = (Panics r, g1)
  end.
Proof.
  unfold produce, Load_body, bind, call, modify.
  destruct (String.eqb (File g) ""); [| destruct (Assemble g)].
  - destruct (chip8.LoadROM chip8.Pong) as [m | r]; eexists; [split |]; reflexivity.
  - destruct (chip8.Assemble (File g)) as [asm | r]; [| eexists; reflexivity].
    destruct (chip8.LoadROM (chip8.ROM asm)) as [m0 | r]; [| eexists; reflexivity].
    destruct (register m0 (chip8.Breakpoints asm)) as [m | r] eqn:Hreg.
    + destruct (add_breakpoints_register (chip8.Breakpoints asm)
                  (set_VM m0 (emit (EvLoadROM (chip8.ROM asm))
                                (emit (EvAssemble (File g)) g)))
                  m0 m eq_refl Hreg) as (g' & Hrun & Hvm & _).
      exists g'. split; [exact Hrun | exact Hvm].
    + exact (add_breakpoints_panics (chip8.Breakpoints asm)
               (set_VM m0 (emit (EvLoadROM (chip8.ROM asm))
                             (emit (EvAssemble (File g)) g)))
               m0 r eq_refl Hreg).
  - destruct (chip8.LoadFile (File g)) as [m | r]; eexists; [split |]; reflexivity.
Qed.

(** X1. With no file given, [Load] loads [chip8.Pong] whatever the
    assemble flag says: when that ROM loads, [VM] is its machine and
    nothing else was called; and on every outcome the first call is
    [LoadROM(Pong)] and no file is read, nothing assembled, no
    breakpoint registered. *)
Theorem Load_default_is_Pong (g : Globals) (Hnone : File g = "") :
  (forall m, chip8.LoadROM chip8.Pong = Returns m ->
     Load g = (Returns tt, set_VM m (emit (EvLoadROM chip8.Pong) g))) /\
  exists l, log (snd (Load g)) = log g ++ EvLoadROM chip8.Pong :: l /\
            filter is_source_event l = [].
Proof.
  assert (Hbody : Load_body g =
    (m <- call (EvLoadROM chip8.Pong) (chip8.LoadROM chip8.Pong) ;; modify (set_VM m)) g).
  { unfold Load_body. rewrite Hnone. reflexivity. }
  unfold Load, defer_recover. rewrite Hbody. unfold bind, call, modify. split.
  - intros m Hm. rewrite Hm. reflexivity.
  - destruct (chip8.LoadROM chip8.Pong) as [m | r]; simpl.
    + exists []. split; reflexivity.
    + unfold bind, call, modify, Println.
      destruct (chip8.LoadROM chip8.Dummy) as [d | v];
        exists [EvPrintln r; EvLoadROM chip8.Dummy];
        simpl; repeat rewrite <- app_assoc; split; reflexivity.
Qed.

(** X2. Whatever happens in it, [Load] changes no variable but [VM]:
    [File], [Assemble], [Break] and [Paused] are as before, the log
    has only grown, and nothing of the loop is in what was added. *)
Theorem Load_only_writes_VM (g : Globals) :
  File (snd (Load g)) = File g /\
  Assemble (snd (Load g)) = Assemble g /\
  Break (snd (Load g)) = Break g /\
  Paused (snd (Load g)) = Paused g /\
  exists l, log (snd (Load g)) = log g ++ l /\ filter is_loop_event l = [].
Proof.
  destruct (Load g) as [c g'] eqn:E.
  destruct (Load_loads _ _ _ E) as (l & (HF & HA & HB & HP & HL) & Hq).
  cbn [snd]. repeat (split; [assumption |]). exists l. split; assumption.
Qed.

(** X3. When the production of the machine panics and the dummy ROM
    does not load either, the panic of [LoadROM(Dummy)] leaves [Load]:
    the first panic has been printed, the second one reaches the
    caller, and [VM] is what the failed production left. *)
Theorem Load_panic_escapes (g g1 : Globals) (r v : PanicValue)
  (Hbody : Load_body g = (Panics r, g1))
  (Hdummy : chip8.LoadROM chip8.Dummy = Panics v) :
  Load g = (Panics v, emit (EvLoadROM chip8.Dummy) (emit (EvPrintln r) g1)) /\
  VM (snd (Load g)) = VM g1.
Proof.
  assert (H : Load g = (Panics v, emit (EvLoadROM chip8.Dummy) (emit (EvPrintln r) g1))).
  { unfold Load, defer_recover. rewrite Hbody.
    unfold Load_deferred, bind, call, modify, Println. rewrite Hdummy. reflexivity. }
  split; [exact H | rewrite H; reflexivity].
Qed.

(** X4. [Load] computes [produce] with a fall-back: it returns with
    the machine [produce] yields for [File] and [Assemble]; when
    [produce] panics it returns with the machine of the dummy ROM; and
    it panics only when that ROM does not load either, with the panic
    of that last call. *)
Theorem Load_refines_produce (g : Globals) :
  match produce (File g) (Assemble g), chip8.LoadROM chip8.Dummy with
  | Returns m, _ => fst (Load g) = Returns tt /\ VM (snd (Load g)) = Some m
  | Panics r, Returns d => fst (Load g) = Returns tt /\ VM (snd (Load g)) = Some d
  | Panics r, Panics v => fst (Load g) = Panics v
  end.
Proof.
  pose proof (Load_body_produce g) as Hb. unfold Load, defer_recover.
  destruct (produce (File g) (Assemble g)) as [m | r].
  - destruct Hb as (g1 & Hb & Hvm). rewrite Hb. split; [reflexivity | exact Hvm].
  - destruct Hb as (g1 & Hb). rewrite Hb.
    unfold Load_deferred, bind, call, modify, Println.
    destruct (chip8.LoadROM chip8.Dummy) as [d | v]; [split |]; reflexivity.
Qed.

(** X5. The outcome of [Load] depends on the load request alone: two
    states with the same [File] and [Assemble] end the same way, and
    when [Load] returns the machines are the same, whatever [VM],
    [Paused], [Break] or the log were before. *)
Theorem Load_depends_on_request (g1 g2 : Globals)
  (Hfile : File g1 = File g2) (Hassemble : Assemble g1 = Assemble g2) :
  fst (Load g1) = fst (Load g2) /\
  (forall u, fst (Load g1) = Returns u -> VM (snd (Load g1)) = VM (snd (Load g2))).
Proof.
  pose proof (Load_body_produce g1) as H1. pose proof (Load_body_produce g2) as H2.
  rewrite <- Hfile, <- Hassemble in H2. unfold Load, defer_recover.
  destruct (produce (File g1) (Assemble g1)) as [m | r].
  - destruct H1 as (a & Ha & Hva). destruct H2 as (b & Hb & Hvb).
    rewrite Ha, Hb. split; [reflexivity | intros u _; cbn [snd Load_deferred ret]; congruence].
  - destruct H1 as (a & Ha). destruct H2 as (b & Hb). rewrite Ha, Hb.
    unfold Load_deferred, bind, call, modify, Println.
    destruct (chip8.LoadROM chip8.Dummy) as [d | v]; split;
      try reflexivity; intros u Hu; discriminate.
Qed.

End Loader_outcomes.

(** ** More on the loop *)

Section Loop_services.
Context {P : chip8.Package} {F : Frontend}.

Lemma services_app (l1 l2 : list Event) :
  services (l1 ++ l2) = services l1 ++ services l2.
Proof. apply flat_map_app. Qed.

Lemma services_Refresh_log : services Refresh_log = [video].
Proof. vm_compute. reflexivity. Qed.

(** What a returning [select] statement logs serves the channel that
    delivered, once, and holds no [ProcessEvents] call. *)
Lemma select_serves (i : Iteration) (g g' : Globals) :
  select i g = (Returns tt, g') ->
  exists l, log g' = log g ++ l /\ services l = [fired i] /\
            filter is_ProcessEvents l = [].
Proof.
  unfold select. destruct (fired i).
  - rewrite Refresh_returns. intros H. inversion H; subst.
    exists Refresh_log. split; [reflexivity |].
    split; [exact services_Refresh_log | reflexivity].
  - destruct (VM g) as [m |] eqn:Hvm.
    + destruct (on_clock_returns (tick i) g m Hvm) as (g1 & Hr & _ & _ & Hl).
      rewrite Hr. intros H. inversion H; subst. eexists. split; [exact Hl |].
      destruct (snd (chip8.Process (tick i) m (Paused g))); split; reflexivity.
    + unfold on_clock. rewrite Hvm. discriminate.
Qed.

(** X6. A turn serves the channel that delivered and nothing else: a
    video turn draws one frame, calls [Process] not at all and leaves
    the machine and the run state as they were; a clock turn calls
    [Process] once and draws nothing. *)
Theorem turn_serves_one_channel (i : Iteration) (g g' : Globals)
  (Hturn : select i g = (Returns tt, g')) :
  exists l,
    log g' = log g ++ l /\ services l = [fired i] /\
    match fired i with
    | video => VM g' = VM g /\ Paused g' = Paused g /\ filter is_Process l = []
    | clock => filter is_draw l = [] /\ List.length (filter is_Process l) = 1%nat
    end.
Proof.
  unfold select in Hturn. destruct (fired i).
  - rewrite Refresh_returns in Hturn. inversion Hturn; subst.
    exists Refresh_log. split; [reflexivity |].
    split; [exact services_Refresh_log |]. repeat split.
  - destruct (VM g) as [m |] eqn:Hvm.
    + destruct (on_clock_returns (tick i) g m Hvm) as (g1 & Hr & _ & _ & Hl).
      rewrite Hr in Hturn. inversion Hturn; subst. eexists. split; [exact Hl |].
      destruct (snd (chip8.Process (tick i) m (Paused g))); repeat split.
    + unfold on_clock in Hturn. rewrite Hvm in Hturn. discriminate.
Qed.

(** X7. Over a whole run the services follow the deliveries: what the
    loop has logged serves a prefix of the channels in the order they
    delivered, and when the loop is still going after n turns it has
    served all n of them and called [ProcessEvents] n times. *)
Theorem services_follow_channels (ins : list Iteration) (g : Globals) (m : chip8.CHIP_8)
  (Hvm : VM g = Some m) :
  exists l,
    log (final (loop ins g)) = log g ++ l /\
    (exists n, services l = firstn n (map fired ins)) /\
    (forall g', loop ins g = Waiting g' ->
       services l = map fired ins /\
       List.length (filter is_ProcessEvents l) = List.length ins).
Proof.
  revert g m Hvm. induction ins as [| i rest IH]; intros g m Hvm.
  - exists []. cbn [loop final]. rewrite app_nil_r. split; [reflexivity |].
    split; [exists 0%nat; reflexivity | intros g' _; split; reflexivity].
  - destruct (loop_turn i g m Hvm)
      as (g1 & ok & Hpoll & _ & _ & Hl1 & Hquit & Hgo).
    destruct ok.
    + destruct (Hgo eq_refl) as (g2 & m2 & l0 & Hs & Hv2 & _ & _ & _ & Hloop).
      destruct (select_serves i g1 g2 Hs) as (l2 & Hl2 & Hserve & Hq).
      destruct (IH g2 m2 Hv2) as (l3 & Hl3 & (n & Hpre) & Hall).
      exists (EvProcessEvents true :: l2 ++ l3). rewrite (Hloop rest). split.
      * rewrite Hl3, Hl2, Hl1. repeat rewrite <- app_assoc. reflexivity.
      * change (EvProcessEvents true :: l2 ++ l3)
          with ([EvProcessEvents true] ++ l2 ++ l3).
        repeat rewrite services_app. repeat rewrite filter_app.
        rewrite Hserve, Hq. cbn [services service flat_map app filter is_ProcessEvents map].
        split.
        -- exists (S n). cbn [firstn]. rewrite Hpre. reflexivity.
        -- intros g' Hw. destruct (Hall g' Hw) as (Ha & Hb).
           rewrite Ha. cbn [List.length]. rewrite Hb. split; reflexivity.
    + exists [EvProcessEvents false]. rewrite (Hquit eq_refl rest). cbn [final].
      split; [exact Hl1 |]. split; [exists 0%nat; reflexivity | discriminate].
Qed.

(** X8. An error of [Process] that is not a [chip8.Breakpoint] is
    dropped: the turn prints nothing, leaves [Paused] alone and keeps
    the machine [Process] returned; the log gains the call only. *)
Theorem other_errors_are_dropped (i : Iteration) (g : Globals)
  (m m' : chip8.CHIP_8) (e : chip8.error)
  (Hclock : fired i = clock) (Hvm : VM g = Some m)
  (Hres : chip8.Process (tick i) m (Paused g) = (m', e))
  (Hother : chip8.is_Breakpoint e = false) :
  select i g = (Returns tt, set_VM m' (emit (EvProcess (Paused g)) g)) /\
  filter (fun ev => match ev with EvPrintln _ => true | _ => false end)
         (log (snd (select i g)))
    = filter (fun ev => match ev with EvPrintln _ => true | _ => false end) (log g).
Proof.
  assert (H : select i g = (Returns tt, set_VM m' (emit (EvProcess (Paused g)) g))).
  { unfold select, on_clock. rewrite Hclock, Hvm, Hres.
    destruct e; [reflexivity | discriminate | reflexivity]. }
  split; [exact H |]. rewrite H. cbn [snd log set_VM emit].
  rewrite filter_app. cbn [filter]. apply app_nil_r.
Qed.


(** X10. What [ProcessEvents] does in a turn is seen by the [Process]
    call of the same turn: the call gets the machine and the value of
    [Paused] that [ProcessEvents] left, so a resume or a pause asked
    for by the user takes effect at the very next clock delivery. *)
Theorem events_reach_Process (i : Iteration) (rest : list Iteration) (g : Globals)
  (m m1 : chip8.CHIP_8) (p1 : bool)
  (Hclock : fired i = clock) (Hvm : VM g = Some m)
  (Hevents : ProcessEvents (pending i) m (Paused g) = (m1, p1, true)) :
  exists g2,
    loop (i :: rest) g = loop rest g2 /\
    VM g2 = Some (fst (chip8.Process (tick i) m1 p1)) /\
    filter is_loop_event (log g2)
      = filter is_loop_event (log g) ++ [EvProcessEvents true; EvProcess p1].
Proof.
  destruct (poll_returns (pending i) g m Hvm) as (g1 & Hpoll & Hv1 & Hp1 & Hl1).
  rewrite Hevents in Hpoll, Hv1, Hp1, Hl1. cbn [fst snd] in Hpoll, Hv1, Hp1, Hl1.
  destruct (on_clock_returns (tick i) g1 m1 Hv1) as (g2 & Hr & Hv2 & _ & Hl2).
  rewrite Hp1 in Hv2, Hl2.
  exists g2. split; [| split; [exact Hv2 |]].
  - cbn [loop]. rewrite Hpoll. unfold select. rewrite Hclock, Hr. reflexivity.
  - rewrite Hl2, Hl1. repeat rewrite filter_app. rewrite <- app_assoc. f_equal.
    destruct (snd (chip8.Process (tick i) m1 p1)); reflexivity.
Qed.


End Loop_services.

(** ** More on start-up *)

Section Startup_outcomes.
Context {P : chip8.Package} {F : Frontend}.

Ltac run_startup :=
  unfold main_startup; cbv [bind draw modify Println ret panic].

(** The first thing the statements of [Load] log is the first call of
    the load request. *)
Lemma Load_body_first_call (g g1 : Globals) (c : Completion unit) :
  Load_body g = (c, g1) ->
  exists l, log g1 = log g ++ first_call (File g) (Assemble g) :: l.
Proof.
  unfold Load_body, first_call, bind, call, modify.
  destruct (String.eqb (File g) ""); [| destruct (Assemble g)].
  - destruct (chip8.LoadROM chip8.Pong); intros H; inversion H; subst;
      exists []; reflexivity.
  - destruct (chip8.Assemble (File g)) as [asm | r];
      [| intros H; inversion H; subst; exists []; reflexivity].
    destruct (chip8.LoadROM (chip8.ROM asm)) as [m0 | r].
    + intros H. destruct (add_breakpoints_loads _ _ _ _ H) as (l & (_ & _ & _ & _ & HL) & _).
      exists (EvLoadROM (chip8.ROM asm) :: l). rewrite HL. cbn [log set_VM emit].
      repeat rewrite <- app_assoc. reflexivity.
    + intros H. inversion H; subst. exists [EvLoadROM (chip8.ROM asm)].
      cbn [log emit]. rewrite <- app_assoc. reflexivity.
  - destruct (chip8.LoadFile (File g)); intros H; inversion H; subst;
      exists []; reflexivity.
Qed.

Lemma Load_first_call (g g' : Globals) (c : Completion unit) :
  Load g = (c, g') ->
  exists l, log g' = log g ++ first_call (File g) (Assemble g) :: l.
Proof.
  unfold Load, defer_recover.
  destruct (Load_body g) as [[u | r] g1] eqn:E; intros H;
    destruct (Load_body_first_call _ _ _ E) as (l1 & Hl1);
    destruct (Load_deferred_loads _ _ _ _ H) as (l2 & (_ & _ & _ & _ & Hl2) & _);
    exists (l1 ++ l2); rewrite Hl2, Hl1, <- app_assoc; reflexivity.
Qed.



(** X12. When SDL cannot be initialised or the window cannot be
    created, [main] panics with that error at once, whatever the
    command line and whatever the outside world would have delivered:
    nothing is loaded ([VM] is still nil), nothing printed, no ticker
    created. *)
Theorem main_panics_without_sdl (cl : CommandLine) (h : Host) (ins : list Iteration)
  (err : string)
  (Hfail : sdl_Init h = Some err \/
           (sdl_Init h = None /\ sdl_CreateWindowAndRenderer h = Some err)) :
  exists g,
    main cl h ins = Panicked err g /\ VM g = None /\
    exists l, log g = EvCall "rand.Seed" [] :: EvCall "sdl.Init" [] :: l /\
              (l = [] \/ l = [EvCall "sdl.CreateWindowAndRenderer" [614; 380]]).
Proof.
  unfold main. run_startup.
  destruct Hfail as [Hinit | [Hinit Hwindow]].
  - rewrite Hinit. eexists. split; [reflexivity |]. split; [reflexivity |].
    exists []. split; [reflexivity | left; reflexivity].
  - rewrite Hinit, Hwindow. eexists. split; [reflexivity |]. split; [reflexivity |].
    eexists. split; [reflexivity | right; reflexivity].
Qed.

(** X13. [main] announces what [Load] goes on to load: with SDL up,
    the line printed is "Loading PONG" when no file was given and
    "Loading" with the base name of the file otherwise, and the entry
    that follows it in the log is the first call of [Load] for that
    very request: [LoadROM(Pong)], [Assemble(File)] under -a, or
    [LoadFile(File)]. *)
Theorem main_announces_what_it_loads (cl : CommandLine) (h : Host) (g : Globals)
  (c : Completion unit)
  (Hinit : sdl_Init h = None) (Hwindow : sdl_CreateWindowAndRenderer h = None)
  (Hstart : main_startup cl h zero = (c, g)) :
  adjacent (EvPrintln (announcement filepath_Base (flag_Arg cl 0)))
           (first_call (flag_Arg cl 0) (opt_a cl))
           (log g).
Proof.
  revert Hstart. run_startup. rewrite Hinit, Hwindow. unfold announcement.
  cbn [File Assemble emit set_File set_Assemble set_Break zero].
  destruct (sdl_LoadBMP h); cbv beta iota;
    cbn [File Assemble emit set_File set_Assemble set_Break zero];
    destruct (String.eqb (flag_Arg cl 0) "") eqn:Hf; cbn [negb];
    match goal with |- context [Load ?X] =>
      destruct (Load X) as [[[] | r] g1] eqn:EL end;
    destruct (Load_first_call _ _ _ EL) as (l & HL);
    cbn [File Assemble log emit set_File set_Assemble set_Break zero] in HL;
    intros H; inversion H; subst; clear H;
    cbn [log emit set_Paused]; rewrite HL;
    match goal with
    | |- adjacent ?a ?b ((?pre ++ [?a]) ++ ?b :: ?l) =>
        exists pre, l; rewrite <- app_assoc; reflexivity
    | |- adjacent ?a ?b ((((((((?pre ++ [?a]) ++ ?b :: ?l) ++ ?e1) ++ ?e2) ++ ?e3) ++ ?e4) ++ ?e5) ++ ?e6) =>
        exists pre, (l ++ e1 ++ e2 ++ e3 ++ e4 ++ e5 ++ e6);
        repeat rewrite <- app_assoc; reflexivity
    end.
Qed.

End Startup_outcomes.

(** ** Drawing *)

Section Drawing.
Context {P : chip8.Package}.

Lemma int64_small (z : Z) : - 2 ^ 63 <= z < 2 ^ 63 -> time.int64 z = z.
Proof. intros Hz. unfold time.int64. rewrite Z.mod_small; lia. Qed.

(** X14. [Frame] draws the four sides of the rectangle it is given and
    nothing else: for a rectangle of non-negative size that lies in a
    window of [width] by [height] pixels, the corners are computed
    without wrap-around, the lines drawn are the top and left sides
    (in black) and then the right and bottom sides (highlighted), and
    both ends of every line are inside the window.  Only the log has
    changed. *)
Theorem Frame_draws_the_sides (width height x y w h : Z) (g : Globals)
  (Hx : 0 <= x) (Hy : 0 <= y) (Hw : 0 <= w) (Hh : 0 <= h)
  (Hright : x + w < width) (Hbottom : y + h < height)
  (Hwidth : width <= 2 ^ 63) (Hheight : height <= 2 ^ 63) :
  exists l,
    Frame x y w h g =
      (Returns tt,
       {| File := File g; Assemble := Assemble g; Break := Break g;
          VM := VM g; Paused := Paused g; log := log g ++ l |}) /\
    lines l = [(x, y, x + w, y); (x, y, x, y + h);
               (x + w, y, x + w, y + h); (x, y + h, x + w, y + h)] /\
    Forall (inside width height) (lines l) /\
    List.length l = 6%nat.
Proof.
  assert (Hxw : int_add x w = x + w) by (apply int64_small; lia).
  assert (Hyh : int_add y h = y + h) by (apply int64_small; lia).
  exists [EvCall "Renderer.SetDrawColor" [0; 0; 0; 255];
          EvCall "Renderer.DrawLine" [x; y; x + w; y];
          EvCall "Renderer.DrawLine" [x; y; x; y + h];
          EvCall "Renderer.SetDrawColor" [95; 112; 120; 255];
          EvCall "Renderer.DrawLine" [x + w; y; x + w; y + h];
          EvCall "Renderer.DrawLine" [x; y + h; x + w; y + h]].
  split.
  - unfold Frame. rewrite Hxw, Hyh. cbv [bind draw modify emit].
    cbn [log File Assemble Break VM Paused].
    repeat rewrite <- app_assoc. reflexivity.
  - split; [reflexivity |]. split; [| reflexivity].
    cbv [lines flat_map line]. cbn [String.eqb Ascii.eqb Bool.eqb app].
    repeat constructor; lia.
Qed.

(** X15. [Refresh] sets the background colour and clears first,
    presents last and once, and draws in between: sixteen lines, the
    sides of its four frames, every one inside the 614 by 380 window
    that [main] created. *)
Theorem Refresh_draws_inside_the_window (g : Globals) :
  exists mid,
    log (snd (Refresh g)) =
      log g ++ EvCall "Renderer.SetDrawColor" [32; 42; 53; 255]
            :: EvCall "Renderer.Clear" [] :: mid ++ [EvCall "Renderer.Present" []] /\
    ~ In (EvCall "Renderer.Clear" []) mid /\
    ~ In (EvCall "Renderer.Present" []) mid /\
    List.length (lines mid) = 16%nat /\
    Forall (inside 614 380) (lines mid).
Proof.
  rewrite Refresh_returns. cbn [snd log].
  exists (removelast (tl (tl Refresh_log))).
  split; [f_equal; vm_compute; reflexivity |].
  split; [| split; [| split]].
  - vm_compute. intuition discriminate.
  - vm_compute. intuition discriminate.
  - vm_compute. reflexivity.
  - vm_compute. repeat constructor; discriminate.
Qed.

End Drawing.

(** ** The icon *)

Section Icon.
Context {P : chip8.Package} {F : Frontend}.
Local Open Scope go_scope.

Lemma same_variables_refl (g : Globals) : same_variables g g.
Proof. repeat split. Qed.

Lemma log_blind_ret A (a : A) : log_blind (ret a).
Proof.
  intros g1 g2 H. exists (Returns a), [], g1, g2.
  repeat rewrite app_nil_r. repeat split; apply H.
Qed.

Lemma log_blind_bind A B (c : Go A) (k : A -> Go B) :
  log_blind c -> (forall a, log_blind (k a)) -> log_blind (bind c k).
Proof.
  intros Hc Hk g1 g2 H. unfold bind.
  destruct (Hc g1 g2 H) as (r & l & a1 & a2 & E1 & E2 & Hs & L1 & L2).
  rewrite E1, E2. destruct r as [a | v].
  - destruct (Hk a a1 a2 Hs) as (r' & l' & b1 & b2 & F1 & F2 & Hs' & M1 & M2).
    exists r', (l ++ l'), b1, b2. rewrite F1, F2, M1, M2, L1, L2.
    repeat rewrite app_assoc. repeat split; apply Hs'.
  - exists (Panics v), l, a1, a2. repeat split; try assumption; apply Hs.
Qed.

Lemma log_blind_call A (e : Event) (c : Completion A) : log_blind (call e c).
Proof.
  intros g1 g2 H. exists c, [e], (emit e g1), (emit e g2). repeat split; apply H.
Qed.

Lemma log_blind_emit (e : Event) : log_blind (modify (emit e)).
Proof.
  intros g1 g2 H. exists (Returns tt), [e], (emit e g1), (emit e g2).
  repeat split; apply H.
Qed.

Lemma log_blind_set_VM (m : chip8.CHIP_8) : log_blind (modify (set_VM m)).
Proof.
  intros g1 g2 H. exists (Returns tt), [], (set_VM m g1), (set_VM m g2).
  cbn [log set_VM]. repeat rewrite app_nil_r. repeat split; apply H.
Qed.

Lemma log_blind_add_breakpoints (bs : list chip8.Address) :
  log_blind (add_breakpoints bs).
Proof.
  induction bs as [| b rest IH]; cbn [add_breakpoints].
  - apply log_blind_ret.
  - intros g1 g2 H. assert (Hvm : VM g1 = VM g2) by apply H.
    rewrite <- Hvm. destruct (VM g1) as [m |].
    + apply log_blind_bind; [apply log_blind_call | | exact H]. intros m'.
      apply log_blind_bind; [apply log_blind_set_VM |]. intros _. exact IH.
    + exists (Panics nil_dereference), [], g1, g2.
      repeat rewrite app_nil_r. repeat split; apply H.
Qed.

Lemma log_blind_Load : log_blind Load.
Proof.
  intros g1 g2 H. unfold Load, defer_recover.
  assert (Hbody : log_blind Load_body).
  { intros a1 a2 Ha. unfold Load_body.
    assert (Hf : File a1 = File a2) by apply Ha.
    assert (Has : Assemble a1 = Assemble a2) by apply Ha.
    rewrite <- Hf, <- Has.
    destruct (String.eqb (File a1) ""); [| destruct (Assemble a1)].
    - apply log_blind_bind; [apply log_blind_call | | exact Ha].
      intros m. apply log_blind_set_VM.
    - apply log_blind_bind; [apply log_blind_call | | exact Ha]. intros asm.
      apply log_blind_bind; [apply log_blind_call |]. intros m.
      apply log_blind_bind; [apply log_blind_set_VM |]. intros _.
      apply log_blind_add_breakpoints.
    - apply log_blind_bind; [apply log_blind_call | | exact Ha].
      intros m. apply log_blind_set_VM. }
  assert (Hdeferred : forall r, log_blind (Load_deferred r)).
  { intros [r |]; cbn [Load_deferred]; [| apply log_blind_ret].
    apply log_blind_bind; [apply log_blind_emit |]. intros _.
    apply log_blind_bind; [apply log_blind_call |]. intros m. apply log_blind_set_VM. }
  destruct (Hbody g1 g2 H) as (r & l & a1 & a2 & E1 & E2 & Hs & L1 & L2).
  rewrite E1, E2.
  assert (Hd : exists r' l' b1 b2,
             Load_deferred (match r with Returns _ => None | Panics v => Some v end) a1
               = (r', b1) /\
             Load_deferred (match r with Returns _ => None | Panics v => Some v end) a2
               = (r', b2) /\
             same_variables b1 b2 /\ log b1 = log a1 ++ l' /\ log b2 = log a2 ++ l')
    by (apply Hdeferred; exact Hs).
  destruct Hd as (r' & l' & b1 & b2 & F1 & F2 & Hs' & M1 & M2).
  exists r', (l ++ l'), b1, b2.
  destruct r as [u | v]; rewrite F1, F2, M1, M2, L1, L2;
    repeat rewrite app_assoc; repeat split; apply Hs'.
Qed.

(** X16. The icon is optional: with SDL up, a start-up whose
    [sdl.LoadBMP] fails ends the same way and with the same variables
    as one whose bitmap loads; its log is the other one without the
    three calls that set the icon, and nothing else differs. *)
Theorem icon_is_optional (cl : CommandLine) (h1 h2 : Host) (e : string)
  (Hinit1 : sdl_Init h1 = None) (Hinit2 : sdl_Init h2 = None)
  (Hwindow1 : sdl_CreateWindowAndRenderer h1 = None)
  (Hwindow2 : sdl_CreateWindowAndRenderer h2 = None)
  (Hicon : sdl_LoadBMP h1 = None) (Hnone : sdl_LoadBMP h2 = Some e) :
  fst (main_startup cl h1 zero) = fst (main_startup cl h2 zero) /\
  same_variables (snd (main_startup cl h1 zero)) (snd (main_startup cl h2 zero)) /\
  exists before after,
    log (snd (main_startup cl h1 zero)) = before ++ icon_calls ++ after /\
    log (snd (main_startup cl h2 zero)) = before ++ after.
Proof.
  unfold main_startup; cbv [bind draw modify Println ret panic].
  rewrite Hinit1, Hinit2, Hwindow1, Hwindow2, Hicon, Hnone. cbv beta iota.
  cbn [File Assemble emit set_File set_Assemble set_Break zero].
  destruct (negb (String.eqb (flag_Arg cl 0) ""));
    match goal with |- context [Load ?X1] =>
      match goal with |- context [Load ?X2] =>
        tryif constr_eq X1 X2 then fail else
          destruct (log_blind_Load X1 X2 ltac:(repeat split))
            as (r & l & a1 & a2 & E1 & E2 & (HF & HA & HB & HV & HP) & L1 & L2)
      end
    end;
    rewrite E1, E2; cbn [log emit] in L1, L2;
    (destruct r as [[] | v]; cbn [fst snd];
     (split; [reflexivity |]);
     (split; [unfold same_variables; cbn [File Assemble Break VM Paused emit set_Paused]; repeat split; congruence |]);
     exists [EvCall "rand.Seed" []; EvCall "sdl.Init" [];
             EvCall "sdl.CreateWindowAndRenderer" [614; 380]; EvCall "sdl.LoadBMP" []];
     eexists; cbn [log emit set_Paused]; rewrite L1, L2;
     repeat rewrite <- app_assoc; cbn [app icon_calls];
     split; reflexivity).
Qed.

End Icon.

(** ** The further properties at concrete inputs *)

Section More_runs.
#[local] Existing Instance Reference.package.
#[local] Existing Instance Reference.frontend.

Lemma Load_default_is_Pong_witness :
  File (Reference.request "" true) = "" /\
  exists l,
    log (snd (Load (Reference.request "" true)))
      = log (Reference.request "" true) ++ EvLoadROM chip8.Pong :: l /\
    filter is_source_event l = [].
Proof.
  split; [reflexivity |].
  exact (proj2 (Load_default_is_Pong (Reference.request "" true) eq_refl)).
Defined.

Lemma Load_panic_escapes_witness :
  @Load_body Reference.faulty Reference.faulty_request
    = (Panics "syntax error", snd (@Load_body Reference.faulty Reference.faulty_request)) /\
  @chip8.LoadROM Reference.faulty (@chip8.Dummy Reference.faulty)
    = Panics "Program too large to fit in memory!" /\
  fst (@Load Reference.faulty Reference.faulty_request)
    = Panics "Program too large to fit in memory!".
Proof.
  assert (Hbody : @Load_body Reference.faulty Reference.faulty_request
            = (Panics "syntax error",
               snd (@Load_body Reference.faulty Reference.faulty_request)))
    by (vm_compute; reflexivity).
  assert (Hdummy : @chip8.LoadROM Reference.faulty (@chip8.Dummy Reference.faulty)
            = Panics "Program too large to fit in memory!")
    by (vm_compute; reflexivity).
  split; [exact Hbody |]. split; [exact Hdummy |].
  rewrite (proj1 (@Load_panic_escapes Reference.faulty _ _ _ _ Hbody Hdummy)).
  reflexivity.
Defined.

Lemma Load_depends_on_request_witness :
  File (Reference.request "prog.c8" true)
    = File (set_Paused true (set_VM Reference.game (Reference.request "prog.c8" true))) /\
  Assemble (Reference.request "prog.c8" true)
    = Assemble (set_Paused true (set_VM Reference.game (Reference.request "prog.c8" true))) /\
  fst (Load (Reference.request "prog.c8" true))
    = fst (Load (set_Paused true (set_VM Reference.game (Reference.request "prog.c8" true)))).
Proof.
  split; [reflexivity |]. split; [reflexivity |].
  exact (proj1 (Load_depends_on_request
                  (Reference.request "prog.c8" true)
                  (set_Paused true (set_VM Reference.game (Reference.request "prog.c8" true)))
                  eq_refl eq_refl)).
Defined.

Lemma turn_serves_one_channel_witness :
  select (Reference.idle video) (Reference.at_loop Reference.armed false)
    = (Returns tt,
       snd (select (Reference.idle video) (Reference.at_loop Reference.armed false))) /\
  exists l,
    log (snd (select (Reference.idle video) (Reference.at_loop Reference.armed false)))
      = log (Reference.at_loop Reference.armed false) ++ l /\
    services l = [video].
Proof.
  assert (H : select (Reference.idle video) (Reference.at_loop Reference.armed false)
              = (Returns tt,
                 snd (select (Reference.idle video)
                             (Reference.at_loop Reference.armed false))))
    by (vm_compute; reflexivity).
  split; [exact H |].
  destruct (turn_serves_one_channel _ _ _ H) as (l & Hl & Hs & _).
  exists l. split; [exact Hl | exact Hs].
Defined.

Lemma services_follow_channels_witness :
  VM (Reference.at_loop Reference.armed false) = Some Reference.armed /\
  exists l,
    log (final (loop [Reference.idle clock; Reference.idle video; Reference.idle clock]
                     (Reference.at_loop Reference.armed false)))
      = log (Reference.at_loop Reference.armed false) ++ l /\
    exists n, services l = firstn n [clock; video; clock].
Proof.
  split; [reflexivity |].
  destruct (services_follow_channels
              [Reference.idle clock; Reference.idle video; Reference.idle clock]
              (Reference.at_loop Reference.armed false) Reference.armed eq_refl)
    as (l & Hl & Hn & _).
  exists l. split; [exact Hl | exact Hn].
Defined.

Lemma other_errors_are_dropped_witness :
  fired (Reference.faulty_idle clock) = clock /\
  VM Reference.faulty_at_loop = Some Reference.armed /\
  @chip8.Process Reference.faulty (tick (Reference.faulty_idle clock)) Reference.armed
     (Paused Reference.faulty_at_loop)
    = (Reference.armed, chip8.other "invalid instruction") /\
  chip8.is_Breakpoint (chip8.other "invalid instruction") = false /\
  @select Reference.faulty Reference.faulty_frontend
     (Reference.faulty_idle clock) Reference.faulty_at_loop
    = (Returns tt,
       @set_VM Reference.faulty Reference.armed
         (@emit Reference.faulty (@EvProcess Reference.faulty false)
            Reference.faulty_at_loop)).
Proof.
  repeat (split; [reflexivity |]).
  exact (proj1 (@other_errors_are_dropped Reference.faulty Reference.faulty_frontend
                  (Reference.faulty_idle clock) Reference.faulty_at_loop
                  Reference.armed Reference.armed (chip8.other "invalid instruction")
                  eq_refl eq_refl eq_refl eq_refl)).
Defined.

Lemma events_reach_Process_witness :
  fired (Reference.turn Reference.TogglePause clock) = clock /\
  VM (Reference.at_loop Reference.armed true) = Some Reference.armed /\
  ProcessEvents (pending (Reference.turn Reference.TogglePause clock)) Reference.armed
                (Paused (Reference.at_loop Reference.armed true))
    = (Reference.armed, false, true) /\
  exists g2,
    loop [Reference.turn Reference.TogglePause clock]
         (Reference.at_loop Reference.armed true) = loop [] g2 /\
    filter is_loop_event (log g2)
      = filter is_loop_event (log (Reference.at_loop Reference.armed true))
        ++ [EvProcessEvents true; EvProcess false].
Proof.
  repeat (split; [reflexivity |]).
  destruct (events_reach_Process (Reference.turn Reference.TogglePause clock) []
              (Reference.at_loop Reference.armed true)
              Reference.armed Reference.armed false eq_refl eq_refl eq_refl)
    as (g2 & Hloop & _ & Hlog).
  exists g2. split; [exact Hloop | exact Hlog].
Defined.

Lemma main_panics_without_sdl_witness :
  sdl_Init Reference.no_sdl = Some "no available video device" /\
  exists g,
    main Reference.paused_start Reference.no_sdl [Reference.idle clock]
      = Panicked "no available video device" g /\
    VM g = None.
Proof.
  split; [reflexivity |].
  destruct (main_panics_without_sdl Reference.paused_start Reference.no_sdl
              [Reference.idle clock] "no available video device"
              (or_introl eq_refl)) as (g & Hmain & Hvm & _).
  exists g. split; [exact Hmain | exact Hvm].
Defined.

Lemma main_announces_what_it_loads_witness :
  sdl_Init Reference.sdl_up = None /\
  sdl_CreateWindowAndRenderer Reference.sdl_up = None /\
  main_startup Reference.paused_start Reference.sdl_up zero
    = (Returns tt, snd (main_startup Reference.paused_start Reference.sdl_up zero)) /\
  adjacent (EvPrintln "Loading game.rom") (EvLoadFile "game.rom")
           (log (snd (main_startup Reference.paused_start Reference.sdl_up zero))).
Proof.
  assert (H : main_startup Reference.paused_start Reference.sdl_up zero
              = (Returns tt, snd (main_startup Reference.paused_start Reference.sdl_up zero)))
    by (vm_compute; reflexivity).
  split; [reflexivity |]. split; [reflexivity |]. split; [exact H |].
  exact (main_announces_what_it_loads Reference.paused_start Reference.sdl_up _ _
           eq_refl eq_refl H).
Defined.

Lemma Frame_draws_the_sides_witness :
  0 <= 402 /\ 0 <= 208 /\ 0 <= 204 /\ 0 <= 164 /\
  402 + 204 < 614 /\ 208 + 164 < 380 /\ 614 <= 2 ^ 63 /\ 380 <= 2 ^ 63 /\
  exists l,
    lines l = [(402, 208, 402 + 204, 208); (402, 208, 402, 208 + 164);
               (402 + 204, 208, 402 + 204, 208 + 164);
               (402, 208 + 164, 402 + 204, 208 + 164)] /\
    Forall (inside 614 380) (lines l).
Proof.
  repeat (split; [lia |]).
  destruct (Frame_draws_the_sides 614 380 402 208 204 164 zero
              ltac:(lia) ltac:(lia) ltac:(lia) ltac:(lia)
              ltac:(lia) ltac:(lia) ltac:(lia) ltac:(lia))
    as (l & _ & Hlines & Hin & _).
  exists l. split; [exact Hlines | exact Hin].
Defined.

Lemma icon_is_optional_witness :
  sdl_Init Reference.sdl_up = None /\ sdl_Init Reference.no_icon = None /\
  sdl_CreateWindowAndRenderer Reference.sdl_up = None /\
  sdl_CreateWindowAndRenderer Reference.no_icon = None /\
  sdl_LoadBMP Reference.sdl_up = None /\
  sdl_LoadBMP Reference.no_icon = Some "data/chip_8.bmp: file not found" /\
  exists before after,
    log (snd (main_startup Reference.paused_start Reference.sdl_up zero))
      = before ++ icon_calls ++ after /\
    log (snd (main_startup Reference.paused_start Reference.no_icon zero))
      = before ++ after.
Proof.
  repeat (split; [reflexivity |]).
  exact (proj2 (proj2 (icon_is_optional Reference.paused_start Reference.sdl_up
                         Reference.no_icon "data/chip_8.bmp: file not found"
                         eq_refl eq_refl eq_refl eq_refl eq_refl eq_refl))).
Defined.

End More_runs.
